(** * Employee attendance tracker: the HTTP service of [backend/server.js]

    A shallow embedding of the Express application and of the part of the
    MySQL server it talks to.  The handlers are translated statement by
    statement; the driver calls ([mysql.createConnection],
    [connection.execute], [connection.end], [pool.execute]) are primitives of
    a small state-and-exception monad over a [World] that holds the storage,
    the server clock, the fate of each driver call to come and a journal of
    the calls made.

    The behaviour of MySQL is not in the JavaScript.  What depends on how
    the server is set up is left open in [Sql.Dialect], and the theorems
    hold for every dialect: how the collation of the columns compares two
    texts and two characters, which texts the server takes for the DATE
    column and which day it stores for them, and how it reads a text that is
    compared with the column.  [Sql.default_server] is one dialect, a server
    installed as it comes, with a collation that ignores case and does not
    pad; the examples run on it.  The rest of the storage model is fixed as
    follows.
    - Strict SQL mode, the server's default: a value that does not fit its
      column makes the statement fail; only the spaces that end a text and
      exceed a VARCHAR are cut off, as in every SQL mode.
    - A text compared with the DATE column is read as a day and a time of
      day; it is equal to the dates of that day when the time is midnight,
      and to no date otherwise.
    - The AUTO_INCREMENT counter hands out the ids of an INT, up to
      2147483647; past that INSERT fails.
    - [ORDER BY] sorts stably: rows that tie come in table order (MySQL
      leaves their order open).
    - A character is an [ascii].

    A driver call is answered, refused before the server runs it, or
    dropped: the server has run it and the answer does not arrive.  The
    schedule of these fates is part of the [World].  [req.body] is an
    object of JSON strings, with fields absent or null, or is undefined.
    [app.listen] is taken to find its port free. *)

From Stdlib Require Import List String Ascii Bool Arith ZArith PArith Lia.
From Stdlib Require Import Permutation Sorted.
Import ListNotations.
Open Scope string_scope.

(* ===================================================================== *)
(** * JavaScript values carried by a request *)
(* ===================================================================== *)

Module Js.

(** What a field of [req.body] can be, for the fields of the data model:
    absent ([undefined] after destructuring), [null], or a JSON string. *)
Inductive Value : Type :=
| Undefined
| Null
| Str (s : string).

(** [!v] is [negb (truthy v)]. *)
Definition truthy (v : Value) : bool :=
  match v with
  | Undefined | Null => false
  | Str s => negb (String.eqb s "")
  end.

Definition strict_eqb (a b : Value) : bool :=
  match a, b with
  | Undefined, Undefined => true
  | Null, Null => true
  | Str x, Str y => String.eqb x y
  | _, _ => false
  end.

(** [Array.prototype.includes]. *)
Definition includes (l : list Value) (v : Value) : bool :=
  existsb (fun x => strict_eqb x v) l.

(** [String.prototype.includes], used to state substring containment. *)
Fixpoint starts_with (x s : string) : bool :=
  match x with
  | EmptyString => true
  | String c x' =>
      match s with
      | EmptyString => false
      | String d s' => Ascii.eqb c d && starts_with x' s'
      end
  end.

Fixpoint contains (s x : string) : bool :=
  starts_with x s ||
  match s with
  | EmptyString => false
  | String _ s' => contains s' x
  end.

(** Containment when characters are compared by [same]: [x] occurs in [s]
    up to [same]. *)
Fixpoint starts_with_by (same : ascii -> ascii -> bool) (x s : string)
  : bool :=
  match x with
  | EmptyString => true
  | String c x' =>
      match s with
      | EmptyString => false
      | String d s' => same d c && starts_with_by same x' s'
      end
  end.

Fixpoint contains_by (same : ascii -> ascii -> bool) (s x : string) : bool :=
  starts_with_by same x s ||
  match s with
  | EmptyString => false
  | String _ s' => contains_by same s' x
  end.

End Js.

(* ===================================================================== *)
(** * The Attendance table and the SQL the service sends *)
(* ===================================================================== *)

Module Sql.

(** ** DATE *)

Record Date : Type := mkDate { year : nat; month : nat; day : nat }.

Definition date_compare (a b : Date) : comparison :=
  match Nat.compare (year a) (year b) with
  | Eq =>
      match Nat.compare (month a) (month b) with
      | Eq => Nat.compare (day a) (day b)
      | c => c
      end
  | c => c
  end.

Definition date_eqb (a b : Date) : bool :=
  match date_compare a b with Eq => true | _ => false end.

Definition leap (y : nat) : bool :=
  (((y mod 4 =? 0) && negb (y mod 100 =? 0)) || (y mod 400 =? 0))%nat.

Definition days_in_month (y m : nat) : nat :=
  match m with
  | 1 | 3 | 5 | 7 | 8 | 10 | 12 => 31
  | 4 | 6 | 9 | 11 => 30
  | 2 => if leap y then 29 else 28
  | _ => 0
  end.

Definition digit (c : ascii) : option nat :=
  let n := nat_of_ascii c in
  if ((48 <=? n) && (n <=? 57))%nat then Some (n - 48) else None.

Definition number (ds : list ascii) : option nat :=
  fold_left
    (fun acc c =>
       match acc, digit c with
       | Some n, Some d => Some (10 * n + d)
       | _, _ => None
       end)
    ds (Some 0).

(** The canonical spelling of a date: [YYYY-MM-DD] naming a day of the
    calendar, within the range MySQL supports. *)
Definition to_date (s : string) : option Date :=
  match list_ascii_of_string s with
  | [y1; y2; y3; y4; d1; m1; m2; d2; a1; a2] =>
      if Ascii.eqb d1 "-" && Ascii.eqb d2 "-" then
        match number [y1; y2; y3; y4], number [m1; m2], number [a1; a2] with
        | Some y, Some m, Some d =>
            if ((1000 <=? y) && (1 <=? d) && (d <=? days_in_month y m))%nat
            then Some (mkDate y m d)
            else None
        | _, _, _ => None
        end
      else None
  | _ => None
  end.

(** The canonical spelling of a time of day, [hh:mm:ss], in seconds after
    midnight. *)
Definition to_time (s : string) : option nat :=
  match list_ascii_of_string s with
  | [h1; h2; c1; m1; m2; c2; s1; s2] =>
      if Ascii.eqb c1 ":" && Ascii.eqb c2 ":" then
        match number [h1; h2], number [m1; m2], number [s1; s2] with
        | Some h, Some m, Some x =>
            if ((h <? 24) && (m <? 60) && (x <? 60))%nat
            then Some (3600 * h + 60 * m + x)
            else None
        | _, _, _ => None
        end
      else None
  | _ => None
  end.

(** A date, or a date and a time of day with a space or a [T] between. *)
Definition to_datetime (s : string) : option (Date * nat) :=
  match to_date s with
  | Some d => Some (d, 0)
  | None =>
      match to_date (String.substring 0 10 s),
            String.get 10 s,
            to_time (String.substring 11 (String.length s - 11) s) with
      | Some d, Some sep, Some t =>
          if Ascii.eqb sep " " || Ascii.eqb sep "T" then Some (d, t) else None
      | _, _, _ => None
      end
  end.

(** ** What depends on the set-up of the server *)

Class Dialect : Type := mkDialect {
  (** [a = b] on two texts, under the collation of the columns *)
  equates : string -> string -> bool;
  equates_refl : forall s, equates s s = true;
  (** a character of a text against a character of a LIKE pattern *)
  char_equates : ascii -> ascii -> bool;
  char_equates_refl : forall c, char_equates c c = true;
  (** the day stored when a text is given to the DATE column; [None] is an
      incorrect date value *)
  read_date : string -> option Date;
  read_date_canonical :
    forall s d, to_date s = Some d -> read_date s = Some d;
  (** the day and the time of day (seconds after midnight) read in a text
      that is compared with the DATE column; [None] is an incorrect value *)
  read_temporal : string -> option (Date * nat);
  read_temporal_canonical :
    forall s d, to_date s = Some d -> read_temporal s = Some (d, 0)
}.

Definition lower (c : ascii) : ascii :=
  let n := nat_of_ascii c in
  if ((65 <=? n) && (n <=? 90))%nat then ascii_of_nat (n + 32) else c.

Fixpoint lowercase (s : string) : string :=
  match s with
  | EmptyString => EmptyString
  | String c s' => String (lower c) (lowercase s')
  end.

(** A server installed as it comes: letters are compared without regard to
    case and texts are not padded.  Of the spellings of a date that a server
    reads, this one keeps the canonical one, alone or followed by a time of
    day, which is dropped when the text is stored in the DATE column. *)
Definition default_server : Dialect :=
  {| equates := fun a b => String.eqb (lowercase a) (lowercase b);
     equates_refl := fun s => String.eqb_refl (lowercase s);
     char_equates := fun a b => Ascii.eqb (lower a) (lower b);
     char_equates_refl := fun c => Ascii.eqb_refl (lower c);
     read_date := fun s => option_map fst (to_datetime s);
     read_date_canonical :=
       fun s d H => ltac:(unfold to_datetime; rewrite H; reflexivity);
     read_temporal := to_datetime;
     read_temporal_canonical :=
       fun s d H => ltac:(unfold to_datetime; rewrite H; reflexivity) |}.

(** ** Rows *)

Inductive Status : Type := Present | Absent.

Definition status_text (s : Status) : string :=
  match s with Present => "Present" | Absent => "Absent" end.

(** [ENUM('Present', 'Absent')]. *)
Definition to_status (s : string) : option Status :=
  if String.eqb s "Present" then Some Present
  else if String.eqb s "Absent" then Some Absent
  else None.

Record Row : Type := mkRow {
  id : positive;              (* INT AUTO_INCREMENT PRIMARY KEY *)
  employeeName : string;      (* VARCHAR(255) NOT NULL *)
  employeeID : string;        (* VARCHAR(100) NOT NULL *)
  date : Date;                (* DATE NOT NULL *)
  status : Status;            (* ENUM('Present', 'Absent') NOT NULL *)
  createdAt : Z               (* TIMESTAMP DEFAULT CURRENT_TIMESTAMP *)
}.

Record Table : Type := mkTable {
  rows : list Row;
  auto_increment : positive
}.

(** What [CREATE TABLE] leaves behind. *)
Definition empty_table : Table := mkTable [] 1%positive.

(** The largest INT. *)
Definition int_max : positive := 2147483647.

(** ** VARCHAR(n) *)

Fixpoint take (n : nat) (s : string) : string :=
  match n, s with
  | S n', String c s' => String c (take n' s')
  | _, _ => EmptyString
  end.

Fixpoint drop (n : nat) (s : string) : string :=
  match n, s with
  | S n', String _ s' => drop n' s'
  | _, _ => s
  end.

Fixpoint all_spaces (s : string) : bool :=
  match s with
  | EmptyString => true
  | String c s' => Ascii.eqb c " " && all_spaces s'
  end.

(** What a VARCHAR([n]) stores of a text: the text when it has at most [n]
    characters, its first [n] characters when only spaces exceed, nothing
    (data too long) otherwise. *)
Definition fit (n : nat) (s : string) : option string :=
  if (String.length s <=? n)%nat then Some s
  else if all_spaces (drop n s) then Some (take n s)
  else None.

Section WithDialect.

Context {D : Dialect}.

(** ** LIKE

    [%] stands for any run of characters, [_] for any one character, and a
    backslash takes the character after it literally; any other character
    of the pattern stands for the characters the collation equates with
    it. *)
Fixpoint like (p s : string) {struct p} : bool :=
  match p with
  | EmptyString =>
      match s with EmptyString => true | String _ _ => false end
  | String c p' =>
      if Ascii.eqb c "%" then
        (fix skip (t : string) : bool :=
           like p' t ||
           match t with
           | EmptyString => false
           | String _ t' => skip t'
           end) s
      else if Ascii.eqb c "_" then
        match s with
        | EmptyString => false
        | String _ s' => like p' s'
        end
      else if Ascii.eqb c "\" then
        match p' with
        | EmptyString =>
            match s with
            | String x EmptyString => char_equates x "\"
            | _ => false
            end
        | String e p'' =>
            match s with
            | EmptyString => false
            | String x s' => char_equates x e && like p'' s'
            end
        end
      else
        match s with
        | EmptyString => false
        | String x s' => char_equates x c && like p' s'
        end
  end.

(** A text with none of the characters LIKE gives a meaning to. *)
Fixpoint literal (x : string) : bool :=
  match x with
  | EmptyString => true
  | String c x' =>
      negb (Ascii.eqb c "%") && negb (Ascii.eqb c "_") &&
      negb (Ascii.eqb c "\") && literal x'
  end.

(** ** ORDER BY date DESC, createdAt DESC

    An insertion sort, which keeps rows that tie in table order. *)

Definition precedes (a b : Row) : bool :=
  match date_compare (date a) (date b) with
  | Gt => true
  | Lt => false
  | Eq => (createdAt b <=? createdAt a)%Z
  end.

Fixpoint place (r : Row) (l : list Row) : list Row :=
  match l with
  | [] => [r]
  | x :: l' => if precedes r x then r :: x :: l' else x :: place r l'
  end.

Definition order_by (l : list Row) : list Row := fold_right place [] l.

(** ** Statements *)

(** One [AND]-ed condition of a [WHERE], with its bound parameter. *)
Inductive Cond : Type :=
| EmployeeIdEq (p : Js.Value)     (* employeeID = ? *)
| DateEq (p : Js.Value)           (* date = ? *)
| NameLike (p : Js.Value)         (* employeeName LIKE ? *)
| EmployeeIdLike (p : Js.Value).  (* employeeID LIKE ? *)

Inductive Stmt : Type :=
| CreateDatabase                  (* CREATE DATABASE IF NOT EXISTS ... *)
| CreateTable                     (* CREATE TABLE IF NOT EXISTS Attendance *)
| Select (conds : list Cond) (ordered : bool)
                                  (* SELECT * FROM Attendance WHERE 1=1
                                     AND ... [ORDER BY date DESC,
                                     createdAt DESC] *)
| Insert (name eid dt st : Js.Value)
                                  (* INSERT INTO Attendance (employeeName,
                                     employeeID, date, status) VALUES ... *)
| Delete (i : Z).                 (* DELETE FROM Attendance WHERE id = ? *)

Inductive Error : Type :=
| ConnectionLost                  (* the server did not answer *)
| UnknownDatabase
| NoDatabaseSelected
| NoSuchTable
| UndefinedParameter              (* the driver refuses [undefined] *)
| ColumnCannotBeNull
| IncorrectDate
| DataTooLong
| DataTruncated
| OutOfRange                      (* the counter has passed the largest INT *)
| CannotDestructure.              (* a TypeError of the handler itself *)

(** What [execute] resolves to (its first component). *)
Inductive Result : Type :=
| ResultRows (l : list Row)
| ResultHeader (affectedRows : nat) (insertId : Z).

Definition result_rows (r : Result) : list Row :=
  match r with ResultRows l => l | ResultHeader _ _ => [] end.

Definition affectedRows (r : Result) : nat :=
  match r with ResultRows _ => 0 | ResultHeader n _ => n end.

Definition insertId (r : Result) : Z :=
  match r with ResultRows _ => 0%Z | ResultHeader _ i => i end.

(** A condition with its parameter converted to the column's type: a
    predicate on rows, or the error of the conversion.  NULL compares
    equal to nothing. *)
Definition compile (c : Cond) : Error + (Row -> bool) :=
  match c with
  | EmployeeIdEq Js.Undefined | DateEq Js.Undefined
  | NameLike Js.Undefined | EmployeeIdLike Js.Undefined =>
      inl UndefinedParameter
  | EmployeeIdEq Js.Null | DateEq Js.Null
  | NameLike Js.Null | EmployeeIdLike Js.Null =>
      inr (fun _ => false)
  | EmployeeIdEq (Js.Str v) => inr (fun r => equates (employeeID r) v)
  | DateEq (Js.Str v) =>
      match read_temporal v with
      | Some (d, t) => inr (fun r => date_eqb (date r) d && (t =? 0)%nat)
      | None => inl IncorrectDate
      end
  | NameLike (Js.Str p) => inr (fun r => like p (employeeName r))
  | EmployeeIdLike (Js.Str p) => inr (fun r => like p (employeeID r))
  end.

Fixpoint compile_where (cs : list Cond) : Error + (Row -> bool) :=
  match cs with
  | [] => inr (fun _ => true)
  | c :: cs' =>
      match compile c, compile_where cs' with
      | inl e, _ => inl e
      | _, inl e => inl e
      | inr f, inr g => inr (fun r => f r && g r)
      end
  end.

(** The values of a new row, converted to the columns' types. *)
Definition new_row (name eid dt st : Js.Value)
  : Error + (string * string * Date * Status) :=
  match name, eid, dt, st with
  | Js.Undefined, _, _, _ | _, Js.Undefined, _, _
  | _, _, Js.Undefined, _ | _, _, _, Js.Undefined => inl UndefinedParameter
  | Js.Null, _, _, _ | _, Js.Null, _, _
  | _, _, Js.Null, _ | _, _, _, Js.Null => inl ColumnCannotBeNull
  | Js.Str n, Js.Str e, Js.Str d, Js.Str s =>
      match fit 255 n, fit 100 e with
      | Some n', Some e' =>
          match read_date d with
          | None => inl IncorrectDate
          | Some d' =>
              match to_status s with
              | None => inl DataTruncated
              | Some s' => inr (n', e', d', s')
              end
          end
      | _, _ => inl DataTooLong
      end
  end.

(** A statement run against the table, at server time [now]. *)
Definition run (now : Z) (s : Stmt) (t : Table) : (Error + Result) * Table :=
  match s with
  | CreateDatabase | CreateTable => (inr (ResultHeader 0 0%Z), t)
  | Select cs ordered =>
      match compile_where cs with
      | inl e => (inl e, t)
      | inr f =>
          let found := filter f (rows t) in
          (inr (ResultRows (if ordered then order_by found else found)), t)
      end
  | Insert name eid dt st =>
      match new_row name eid dt st with
      | inl e => (inl e, t)
      | inr (n, e, d, s') =>
          let i := auto_increment t in
          if (i <=? int_max)%positive then
            (inr (ResultHeader 1 (Zpos i)),
             mkTable (rows t ++ [mkRow i n e d s' now]) (Pos.succ i))
          else (inl OutOfRange, t)
      end
  | Delete i =>
      let kept := filter (fun r => negb (Zpos (id r) =? i)%Z) (rows t) in
      (inr (ResultHeader (List.length (rows t) - List.length kept) 0%Z),
       mkTable kept (auto_increment t))
  end.

End WithDialect.

End Sql.

(* ===================================================================== *)
(** * The process: driver, handlers, start-up *)
(* ===================================================================== *)

Module Server.

Import Sql.

(** ** The world outside the handlers *)

(** What the MySQL server holds for [dbConfig.database]. *)
Inductive Storage : Type :=
| NoDatabase
| NoTable
| HasTable (t : Table).

Inductive Channel : Type :=
| Setup     (* the connection of [initializeDatabase], no database selected *)
| Pool.     (* [pool], scoped to [dbConfig.database] *)

(** A call made to the driver or to the process, as it is made. *)
Inductive Event : Type :=
| Connect
| Execute (c : Channel) (s : Stmt)
| End_
| Listen
| Exit (code : Z).

Inductive Process : Type :=
| Starting
| Listening
| Exited (code : Z).

(** What becomes of a driver call. *)
Inductive Fate : Type :=
| Answered
| Refused     (* it fails before the server runs anything *)
| Dropped.    (* the server runs it, the answer does not arrive: it fails *)

Record World : Type := mkWorld {
  storage : Storage;
  clock : Z;                 (* seconds; what CURRENT_TIMESTAMP reads *)
  faults : list Fate;        (* one per driver call still to come; none
                                left, all answered *)
  journal : list Event;
  process : Process
}.

(** ** Effects: state that survives an exception *)

Definition Eff (A : Type) : Type := World -> (Error + A) * World.

Definition ret {A : Type} (a : A) : Eff A := fun w => (inr a, w).

Definition bind {A B : Type} (m : Eff A) (k : A -> Eff B) : Eff B :=
  fun w =>
    match m w with
    | (inl e, w') => (inl e, w')
    | (inr a, w') => k a w'
    end.

Definition throw {A : Type} (e : Error) : Eff A := fun w => (inl e, w).

Definition try_catch {A : Type} (m : Eff A) (h : Error -> Eff A) : Eff A :=
  fun w =>
    match m w with
    | (inl e, w') => h e w'
    | (inr a, w') => (inr a, w')
    end.

Notation "x <- m ;; k" := (bind m (fun x => k))
  (at level 61, m at next level, right associativity).
Notation "m ;; k" := (bind m (fun _ => k))
  (at level 61, right associativity).

(** ** The driver *)

Section WithDialect.

Context {D : Dialect}.

Definition store (s : Storage) (w : World) : World :=
  mkWorld s (clock w) (faults w) (journal w) (process w).

(** Every driver call is journalled and takes the next entry of the
    schedule.  [effect] is what the server does when it runs the call. *)
Definition call {A : Type} (ev : Event) (effect : Eff A) : Eff A :=
  fun w =>
    let w' := mkWorld (storage w) (clock w) (tl (faults w))
                      (journal w ++ [ev]) (process w) in
    match faults w with
    | Refused :: _ => (inl ConnectionLost, w')
    | Dropped :: _ => (inl ConnectionLost, snd (effect w'))
    | _ => effect w'
    end.

(** [mysql.createConnection({ host, user, password })] *)
Definition createConnection : Eff unit := call Connect (ret tt).

(** [connection.execute]: the server is reached, no database is selected. *)
Definition connection_execute (s : Stmt) : Eff Result :=
  call (Execute Setup s)
    (fun w =>
       match s with
       | CreateDatabase =>
           (inr (ResultHeader 1 0%Z),
            match storage w with
            | NoDatabase => store NoTable w
            | _ => w
            end)
       | _ => (inl NoDatabaseSelected, w)
       end).

Definition connection_end : Eff unit := call End_ (ret tt).

(** [pool.execute]: the statement runs in [dbConfig.database]. *)
Definition pool_execute (s : Stmt) : Eff Result :=
  call (Execute Pool s)
    (fun w =>
       match storage w with
       | NoDatabase => (inl UnknownDatabase, w)
       | NoTable =>
           match s with
           | CreateTable =>
               (inr (ResultHeader 0 0%Z), store (HasTable empty_table) w)
           | CreateDatabase => (inr (ResultHeader 0 0%Z), w)
           | _ => (inl NoSuchTable, w)
           end
       | HasTable t =>
           let (r, t') := Sql.run (clock w) s t in
           (r, store (HasTable t') w)
       end).

(** ** Responses *)

Inductive Body : Type :=
| Records (l : list Row)                    (* res.json(rows) *)
| Failure (error : string)                  (* { error } *)
| Message (message : string)                (* { message } *)
| Created (message : string) (id : Z)       (* { message, id } *)
| Health (status message : string) (timestamp : Z)
         (database version : string).

Record Response : Type := mkResponse { code : nat; body : Body }.

(** [res.json(b)] and [res.status(c).json(b)]. *)
Definition json (b : Body) : Eff Response := ret (mkResponse 200 b).
Definition status_json (c : nat) (b : Body) : Eff Response :=
  ret (mkResponse c b).

(** ** Handlers *)

(** GET /api/attendance *)
Definition get_attendance : Eff Response :=
  try_catch
    (r <- pool_execute (Select [] true) ;;
     json (Records (result_rows r)))
    (fun _ => status_json 500 (Failure "Failed to fetch attendance records")).

Record CreateBody : Type := mkCreateBody {
  body_employeeName : Js.Value;
  body_employeeID : Js.Value;
  body_date : Js.Value;
  body_status : Js.Value
}.

(** POST /api/attendance.  [body] is [req.body]: undefined when no body
    was parsed, and then the destructuring throws, inside the [try]. *)
Definition create_attendance (body : option CreateBody) : Eff Response :=
  try_catch
    (match body with
     | None => throw CannotDestructure
     | Some b =>
         let employeeName := body_employeeName b in
         let employeeID := body_employeeID b in
         let date := body_date b in
         let status := body_status b in
         if negb (Js.truthy employeeName) || negb (Js.truthy employeeID)
            || negb (Js.truthy date) || negb (Js.truthy status)
         then status_json 400 (Failure "All fields are required")
         else if negb (Js.includes [Js.Str "Present"; Js.Str "Absent"] status)
         then status_json 400 (Failure "Status must be Present or Absent")
         else
           existing <- pool_execute
                         (Select [EmployeeIdEq employeeID; DateEq date] false) ;;
           if (0 <? List.length (result_rows existing))%nat
           then status_json 400
                  (Failure "Attendance already recorded for this employee on the selected date")
           else
             result <- pool_execute
                         (Insert employeeName employeeID date status) ;;
             status_json 201
               (Created "Attendance recorded successfully" (insertId result))
     end)
    (fun _ => status_json 500 (Failure "Failed to record attendance")).

(** The same, for a request whose body was parsed to an object. *)
Definition post_attendance (b : CreateBody) : Eff Response :=
  create_attendance (Some b).

(** DELETE /api/attendance/:id.  The router hands [:id] over as text; the
    model takes the integer it denotes. *)
Definition delete_attendance (i : Z) : Eff Response :=
  try_catch
    (result <- pool_execute (Delete i) ;;
     if (affectedRows result =? 0)%nat
     then status_json 404 (Failure "Record not found")
     else json (Message "Record deleted successfully"))
    (fun _ => status_json 500 (Failure "Failed to delete record")).

Record Query : Type := mkQuery {
  query_date : option string;
  query_employeeName : option string;
  query_employeeID : option string
}.

(** [if (q) { query += ' AND ...'; params.push(...) }] *)
Definition push_if (q : option string) (c : string -> Cond)
    (conds : list Cond) : list Cond :=
  match q with
  | Some s => if negb (String.eqb s "") then conds ++ [c s] else conds
  | None => conds
  end.

Definition filter_conds (q : Query) : list Cond :=
  let conds := [] in
  let conds := push_if (query_date q) (fun s => DateEq (Js.Str s)) conds in
  let conds := push_if (query_employeeName q)
                 (fun s => NameLike (Js.Str ("%" ++ s ++ "%"))) conds in
  let conds := push_if (query_employeeID q)
                 (fun s => EmployeeIdLike (Js.Str ("%" ++ s ++ "%"))) conds in
  conds.

(** GET /api/attendance/filter *)
Definition filter_attendance (q : Query) : Eff Response :=
  try_catch
    (r <- pool_execute (Select (filter_conds q) true) ;;
     json (Records (result_rows r)))
    (fun _ => status_json 500 (Failure "Failed to filter attendance records")).

(** GET /api/health: no [async], no [pool]. *)
Definition health : Eff Response :=
  fun w =>
    json (Health "OK" "Server is running" (clock w) "Connected" "1.0.0") w.

(** ** Start-up *)

(** [app.listen(PORT, ...)], the port being free. *)
Definition listen : Eff unit :=
  fun w =>
    (inr tt,
     mkWorld (storage w) (clock w) (faults w) (journal w ++ [Listen])
             Listening).

(** [process.exit(c)] *)
Definition exit (c : Z) : Eff unit :=
  fun w =>
    (inr tt,
     mkWorld (storage w) (clock w) (faults w) (journal w ++ [Exit c])
             (Exited c)).

Definition initializeDatabase : Eff unit :=
  try_catch
    (createConnection ;;
     connection_execute CreateDatabase ;;
     connection_end ;;
     pool_execute CreateTable ;;
     ret tt)
    (fun error => throw error).

Definition startServer : Eff unit :=
  try_catch
    (initializeDatabase ;;
     listen)
    (fun _ => exit 1).

(** The process at [node server.js], before [startServer()] runs. *)
Definition boot (s : Storage) (now : Z) (fs : list Fate) : World :=
  mkWorld s now fs [] Starting.

(** ** Requests, one after the other *)

Inductive Request : Type :=
| ListAll
| Create (b : CreateBody)
| CreateWithoutBody
| Remove (i : Z)
| Filter (q : Query)
| HealthCheck.

Definition handle (r : Request) : Eff Response :=
  match r with
  | ListAll => get_attendance
  | Create b => post_attendance b
  | CreateWithoutBody => create_attendance None
  | Remove i => delete_attendance i
  | Filter q => filter_attendance q
  | HealthCheck => health
  end.

(** A server that listens on a table [t], with a storage layer that
    answers: no failure is scheduled. *)
Definition serving (t : Table) (now : Z) : World :=
  mkWorld (HasTable t) now [] [] Listening.

Definition table_of (w : World) : option Table :=
  match storage w with
  | HasTable t => Some t
  | _ => None
  end.

(** ** The invariant of the data model *)

Definition key (r : Row) : string * Date := (employeeID r, date r).

(** At most one record per (employeeID, date). *)
Definition one_per_day (t : Table) : Prop := NoDup (map key (rows t)).

Definition world_ok (w : World) : Prop :=
  match storage w with
  | HasTable t => one_per_day t
  | _ => True
  end.


(** A connection is accepted only once [app.listen] has run. *)
Definition serve (r : Request) (w : World) : option Response * World :=
  match process w with
  | Listening =>
      match handle r w with
      | (inr a, w') => (Some a, w')
      | (inl _, w') => (None, w')
      end
  | _ => (None, w)
  end.

Definition at_time (now : Z) (w : World) : World :=
  mkWorld (storage w) now (faults w) (journal w) (process w).

(** Requests served sequentially, each at its own time. *)
Fixpoint serve_all (rs : list (Z * Request)) (w : World) : World :=
  match rs with
  | [] => w
  | (now, r) :: rs' => serve_all rs' (snd (serve r (at_time now w)))
  end.

(** ** What the statements of the specification say *)

(** [a] is a later day than [b]. *)
Definition later (a b : Date) : Prop :=
  year b < year a \/
  (year a = year b /\
   (month b < month a \/ (month a = month b /\ day b < day a))).

(** Date descending, then creation time descending. *)
Definition listed_before (a b : Row) : Prop :=
  later (date a) (date b) \/
  (date a = date b /\ (createdAt b <= createdAt a)%Z).

(** A body field that is missing or empty. *)
Definition missing_or_empty (v : Js.Value) : Prop :=
  v = Js.Undefined \/ v = Js.Null \/ v = Js.Str "".

Definition status_allowed (v : Js.Value) : Prop :=
  v = Js.Str "Present" \/ v = Js.Str "Absent".

(** A query parameter that is absent or the empty string. *)
Definition blank (q : option string) : Prop := q = None \/ q = Some "".

Definition unblank (q : option string) : option string :=
  match q with
  | Some s => if String.eqb s "" then None else Some s
  | None => None
  end.

(** The query with its empty parameters left out. *)
Definition without_blanks (q : Query) : Query :=
  mkQuery (unblank (query_date q)) (unblank (query_employeeName q))
          (unblank (query_employeeID q)).

(** A condition on a parameter holds when the parameter is not supplied. *)
Definition on_param (q : option string) (test : string -> bool) : bool :=
  match q with
  | Some s => if String.eqb s "" then true else test s
  | None => true
  end.

(** The date of the row is the date that [s] writes: the day the server
    reads in [s], and no time of day with it. *)
Definition dated (s : string) (r : Row) : bool :=
  match read_temporal s with
  | Some (d, t) => date_eqb (date r) d && (t =? 0)%nat
  | None => false
  end.

(** The conjunction as the specification words it: exact date, substring
    containment for the name and for the employee ID. *)
Definition claimed_match (q : Query) (r : Row) : bool :=
  on_param (query_date q) (fun s => dated s r) &&
  on_param (query_employeeName q) (fun s => Js.contains (employeeName r) s) &&
  on_param (query_employeeID q) (fun s => Js.contains (employeeID r) s).

(** The conjunction of the specification, the characters compared as the
    collation of the columns compares them. *)
Definition collated_match (q : Query) (r : Row) : bool :=
  on_param (query_date q) (fun s => dated s r) &&
  on_param (query_employeeName q)
    (fun s => Js.contains_by char_equates (employeeName r) s) &&
  on_param (query_employeeID q)
    (fun s => Js.contains_by char_equates (employeeID r) s).

(** The conjunction as the WHERE clause of the handler evaluates it. *)
Definition sql_match (q : Query) (r : Row) : bool :=
  on_param (query_date q) (fun s => dated s r) &&
  on_param (query_employeeName q)
    (fun s => like ("%" ++ s ++ "%") (employeeName r)) &&
  on_param (query_employeeID q)
    (fun s => like ("%" ++ s ++ "%") (employeeID r)).

(** The supplied parameters are well formed for a containment search: the
    server reads the date, the texts hold no LIKE metacharacter. *)
Definition plain_query (q : Query) : Prop :=
  (forall s, query_date q = Some s -> s <> "" -> read_temporal s <> None) /\
  (forall s, query_employeeName q = Some s -> literal s = true) /\
  (forall s, query_employeeID q = Some s -> literal s = true).

(** The row test of [WHERE employeeID = ? AND date = ?], once the date
    parameter is read as the day [d] at the time of day [tm]. *)
Definition same_key (e : string) (d : Date) (tm : nat) (r : Row) : bool :=
  equates (employeeID r) e && (date_eqb (date r) d && (tm =? 0)%nat && true).

(** The server reads the text [ds] as the day [d], when it stores it in the
    DATE column and when it compares it with the column. *)
Definition reads_as (ds : string) (d : Date) : Prop :=
  read_date ds = Some d /\ exists tm : nat, read_temporal ds = Some (d, tm).

(** No stored record is of the day [d] with an employeeID that the
    collation of the column equates with [e]. *)
Definition unrecorded (e : string) (d : Date) (t : Table) : Prop :=
  forall r, In r (rows t) -> equates (employeeID r) e = true -> date r <> d.

(** The first [n] driver calls are all answered. *)
Definition answers (n : nat) (fs : list Fate) : Prop :=
  forall k, k < n -> nth k fs Answered = Answered.

End WithDialect.

End Server.

(* ===================================================================== *)
(** * Vocabulary for the behaviour of the handlers and of start-up *)
(* ===================================================================== *)

Module Behaviour.

Import Sql Server.

Section WithDialect.

Context {D : Dialect}.

(** A body whose four fields are texts, the status one of the two allowed. *)
Definition text_body (n e ds : string) (st : Status) : CreateBody :=
  mkCreateBody (Js.Str n) (Js.Str e) (Js.Str ds) (Js.Str (status_text st)).

(** The records of an answer, none when the answer carries no records. *)
Definition records (o : (Error + Response) * World) : list Row :=
  match fst o with
  | inr r => match body r with Records l => l | _ => [] end
  | inl _ => []
  end.

(** The next statement sent through the pool is not answered: the call
    fails, or there is no database, or no table. *)
Definition refuses (w : World) : Prop :=
  (exists f fs, faults w = f :: fs /\ f <> Answered) \/
  storage w = NoDatabase \/ storage w = NoTable.

(** What the columns [employeeName VARCHAR(255) NOT NULL] and
    [employeeID VARCHAR(100) NOT NULL] and the validation of Create ask of a
    row. *)
Definition row_ok (r : Row) : Prop :=
  employeeName r <> "" /\ employeeID r <> "" /\
  String.length (employeeName r) <= 255 /\
  String.length (employeeID r) <= 100.

Definition rows_ok (w : World) : Prop :=
  match storage w with
  | HasTable t => Forall row_ok (rows t)
  | _ => True
  end.

(** [id] is a primary key, and every id was handed out by the counter. *)
Definition ids_ok (t : Table) : Prop :=
  NoDup (map id (rows t)) /\
  Forall (fun r => (id r < auto_increment t)%positive) (rows t).

Definition keys_ok (w : World) : Prop :=
  match storage w with
  | HasTable t => ids_ok t
  | _ => True
  end.

(** [n] times the character [c]. *)
Fixpoint copies (n : nat) (c : ascii) : string :=
  match n with
  | 0 => EmptyString
  | S n' => String c (copies n' c)
  end.

(** A text without the escape character of LIKE. *)
Fixpoint no_backslash (x : string) : bool :=
  match x with
  | EmptyString => true
  | String c x' => negb (Ascii.eqb c "\") && no_backslash x'
  end.

(** The query that keeps one parameter of [q]. *)
Definition only_date (q : Query) : Query := mkQuery (query_date q) None None.
Definition only_name (q : Query) : Query :=
  mkQuery None (query_employeeName q) None.
Definition only_id (q : Query) : Query :=
  mkQuery None None (query_employeeID q).

(** A supplied date is a text the server reads as a date. *)
Definition date_ok (q : Query) : Prop :=
  forall s, query_date q = Some s -> s <> "" -> read_temporal s <> None.

(** The driver calls of [initializeDatabase], in the order they are made. *)
Definition bootstrap_calls : list Event :=
  [Connect; Execute Setup CreateDatabase; End_; Execute Pool CreateTable].

(** The first driver call to fail is call number [k], counted from 0. *)
Definition fails_at (k : nat) (fs : list Fate) : Prop :=
  nth k fs Answered <> Answered /\
  forall j, j < k -> nth j fs Answered = Answered.

(** The server has run call number [j] of a start-up whose first failing
    call is call [k] with fate [f]. *)
Definition has_run (j k : nat) (f : Fate) : bool :=
  (j <? k)%nat ||
  ((j =? k)%nat && match f with Dropped => true | _ => false end).

(** A Create whose employeeID is no longer than its column and whose date,
    when the server stores it as a day, is compared as that day at
    midnight: every date in canonical spelling is. *)
Definition plain_create (r : Request) : Prop :=
  match r with
  | Create b =>
      forall e ds d,
        body_employeeID b = Js.Str e -> body_date b = Js.Str ds ->
        read_date ds = Some d ->
        String.length e <= 100 /\ read_temporal ds = Some (d, 0)
  | _ => True
  end.

(** The property [P] holds of the table, when there is one. *)
Definition holds_in (P : Table -> Prop) (w : World) : Prop :=
  match storage w with
  | HasTable t => P t
  | _ => True
  end.

(** A statement sent through the pool. *)
Definition pool_call (ev : Event) : Prop := exists s, ev = Execute Pool s.

End WithDialect.

End Behaviour.

(* ===================================================================== *)
(** * Properties *)
(* ===================================================================== *)

Import Sql Server.

Ltac by_compare :=
  repeat match goal with
         | |- context [Nat.compare ?a ?b] =>
             destruct (Nat.compare_spec a b)
         | H : context [Nat.compare ?a ?b] |- _ =>
             destruct (Nat.compare_spec a b)
         end;
  simpl in *; subst; try congruence; try lia.

(** The first four entries of a fault schedule, one by one. *)
Ltac each_fault A :=
  pose proof (A 0 ltac:(lia)); pose proof (A 1 ltac:(lia));
  pose proof (A 2 ltac:(lia)); pose proof (A 3 ltac:(lia)).

Section Claims.

Context {D : Dialect}.

(** ** Dates and the listing order *)

Lemma date_compare_eq (a b : Date) : date_compare a b = Eq <-> a = b.
Proof.
  destruct a as [y m d], b as [y' m' d']; unfold date_compare; simpl.
  split.
  - by_compare.
  - intros E; inversion E; subst. now rewrite !Nat.compare_refl.
Qed.

Lemma date_eqb_eq (a b : Date) : date_eqb a b = true <-> a = b.
Proof.
  unfold date_eqb. rewrite <- date_compare_eq.
  destruct (date_compare a b); split; congruence.
Qed.

Lemma date_compare_gt (a b : Date) : date_compare a b = Gt <-> later a b.
Proof.
  destruct a as [y m d], b as [y' m' d']; unfold date_compare, later; simpl.
  split; [ by_compare | intros H; by_compare ].
Qed.

Lemma date_compare_lt (a b : Date) : date_compare a b = Lt <-> later b a.
Proof.
  destruct a as [y m d], b as [y' m' d']; unfold date_compare, later; simpl.
  split; [ by_compare | intros H; by_compare ].
Qed.

Lemma later_trans (a b c : Date) : later a b -> later b c -> later a c.
Proof. unfold later. lia. Qed.

Lemma later_irrefl (a : Date) : ~ later a a.
Proof. unfold later. lia. Qed.

Lemma precedes_spec (a b : Row) : precedes a b = true <-> listed_before a b.
Proof.
  unfold precedes, listed_before.
  destruct (date_compare (date a) (date b)) eqn:E.
  - apply date_compare_eq in E. rewrite Z.leb_le, E.
    split; [ now right | intros [L | [_ L]]; [ now apply later_irrefl in L | easy ] ].
  - apply date_compare_lt in E.
    split; [ discriminate | intros [L | [Q _]] ].
    + exfalso. apply (later_irrefl (date a)). eapply later_trans; eauto.
    + rewrite Q in E. now apply later_irrefl in E.
  - apply date_compare_gt in E. split; [ now left | reflexivity ].
Qed.

Lemma listed_before_trans (a b c : Row) :
  listed_before a b -> listed_before b c -> listed_before a c.
Proof.
  unfold listed_before.
  intros [L1 | [E1 T1]] [L2 | [E2 T2]].
  - left. eapply later_trans; eauto.
  - left. now rewrite <- E2.
  - left. now rewrite E1.
  - right. split; [ congruence | lia ].
Qed.

Lemma listed_before_total (a b : Row) : listed_before a b \/ listed_before b a.
Proof.
  unfold listed_before.
  destruct (date_compare (date a) (date b)) eqn:E.
  - apply date_compare_eq in E. rewrite E.
    destruct (Z.le_ge_cases (createdAt a) (createdAt b)); auto.
  - apply date_compare_lt in E. auto.
  - apply date_compare_gt in E. auto.
Qed.

Lemma precedes_false (a b : Row) : precedes a b = false -> listed_before b a.
Proof.
  intros H. destruct (listed_before_total a b) as [L | L]; [ | exact L ].
  apply precedes_spec in L. congruence.
Qed.

(** ** ORDER BY sorts, keeps every row, and commutes with WHERE *)

Lemma place_perm (r : Row) (l : list Row) : Permutation (r :: l) (place r l).
Proof.
  induction l as [| x l IH]; simpl.
  - apply Permutation_refl.
  - destruct (precedes r x).
    + apply Permutation_refl.
    + etransitivity; [ apply perm_swap | now apply perm_skip ].
Qed.

Lemma order_by_perm (l : list Row) : Permutation (order_by l) l.
Proof.
  induction l as [| r l IH]; simpl.
  - constructor.
  - symmetry. etransitivity; [ | apply place_perm ].
    apply perm_skip. now symmetry.
Qed.

Lemma place_sorted (r : Row) (l : list Row) :
  StronglySorted listed_before l -> StronglySorted listed_before (place r l).
Proof.
  induction 1 as [| x l S IH F]; simpl.
  - repeat constructor.
  - destruct (precedes r x) eqn:P.
    + apply precedes_spec in P.
      constructor; [ now constructor | ].
      constructor; [ exact P | ].
      eapply Forall_impl; [ | exact F ].
      intros z Hz. eapply listed_before_trans; eauto.
    + apply precedes_false in P.
      constructor; [ exact IH | ].
      eapply Permutation_Forall; [ apply place_perm | ].
      now constructor.
Qed.

Lemma order_by_sorted (l : list Row) : StronglySorted listed_before (order_by l).
Proof.
  induction l as [| r l IH]; simpl.
  - constructor.
  - now apply place_sorted.
Qed.

Lemma place_front (r : Row) (l : list Row) :
  Forall (listed_before r) l -> place r l = r :: l.
Proof.
  destruct 1 as [| x l P _]; simpl; [ reflexivity | ].
  apply precedes_spec in P. now rewrite P.
Qed.

Lemma place_filter_in (f : Row -> bool) (r : Row) (l : list Row) :
  StronglySorted listed_before l -> f r = true ->
  filter f (place r l) = place r (filter f l).
Proof.
  intros S Fr. induction S as [| x l S IH F]; simpl.
  - now rewrite Fr.
  - destruct (precedes r x) eqn:P.
    + simpl. rewrite Fr.
      change (r :: filter f (x :: l) = place r (filter f (x :: l))).
      symmetry. apply place_front.
      apply precedes_spec in P.
      apply Forall_forall. intros z Hz. apply filter_In in Hz as [Hz _].
      destruct Hz as [-> | Hz]; [ exact P | ].
      eapply listed_before_trans; [ exact P | ].
      eapply Forall_forall in F; eauto.
    + simpl. destruct (f x); simpl; rewrite ?P, IH; reflexivity.
Qed.

Lemma place_filter_out (f : Row -> bool) (r : Row) (l : list Row) :
  f r = false -> filter f (place r l) = filter f l.
Proof.
  intros Fr. induction l as [| x l IH]; simpl.
  - now rewrite Fr.
  - destruct (precedes r x); simpl.
    + now rewrite Fr.
    + now rewrite IH.
Qed.

Lemma order_by_filter (f : Row -> bool) (l : list Row) :
  order_by (filter f l) = filter f (order_by l).
Proof.
  induction l as [| r l IH]; simpl; [ reflexivity | ].
  destruct (f r) eqn:Fr.
  - simpl. rewrite IH. symmetry.
    apply place_filter_in; [ apply order_by_sorted | exact Fr ].
  - rewrite IH. symmetry. now apply place_filter_out.
Qed.

(** ** LIKE on a text without metacharacters is containment *)

Lemma append_empty_r (a : string) : (a ++ "")%string = a.
Proof. induction a as [| x a IH]; simpl; [ reflexivity | now rewrite IH ]. Qed.

Lemma append_length (a b : string) :
  String.length (a ++ b) = String.length a + String.length b.
Proof. induction a as [| c a IH]; simpl; [ reflexivity | now rewrite IH ]. Qed.

Lemma like_percent_step (p s : string) :
  like (String "%" p) s =
  like p s ||
  match s with
  | EmptyString => false
  | String _ s' => like (String "%" p) s'
  end.
Proof. destruct s; reflexivity. Qed.

Lemma like_percent (p s : string) :
  like (String "%" p) s = true <->
  exists a b, s = (a ++ b)%string /\ like p b = true.
Proof.
  induction s as [| c s IH]; rewrite like_percent_step, orb_true_iff.
  - split.
    + intros [H | H]; [ now exists EmptyString, EmptyString | discriminate ].
    + intros [a [b [E H]]]. left.
      destruct a; [ simpl in E; now subst | discriminate ].
  - rewrite IH. split.
    + intros [H | [a [b [E H]]]].
      * now exists EmptyString, (String c s).
      * exists (String c a), b. simpl. now rewrite E.
    + intros [a [b [E H]]]. destruct a as [| c' a]; simpl in E.
      * left. now subst.
      * right. inversion E; subst. now exists a, b.
Qed.

Lemma like_any (s : string) : like "%" s = true.
Proof.
  apply like_percent. exists s, EmptyString.
  now rewrite append_empty_r.
Qed.

Lemma like_literal_char (c : ascii) (p s : string) :
  literal (String c EmptyString) = true ->
  like (String c p) s =
  match s with
  | EmptyString => false
  | String x s' => char_equates x c && like p s'
  end.
Proof.
  cbn [literal]. rewrite !andb_true_iff, !negb_true_iff.
  intros [[[H1 H2] H3] _].
  cbn [like]. now rewrite H1, H2, H3.
Qed.

Lemma like_literal_starts (x s : string) :
  literal x = true ->
  like (x ++ "%") s = Js.starts_with_by char_equates x s.
Proof.
  revert s. induction x as [| c x IH]; intros s L.
  - apply like_any.
  - assert (Lc : literal (String c EmptyString) = true).
    { cbn [literal] in *. rewrite !andb_true_iff in *. tauto. }
    assert (Lx : literal x = true).
    { cbn [literal] in L. rewrite !andb_true_iff in L. tauto. }
    change (String c x ++ "%")%string with (String c (x ++ "%")).
    rewrite (like_literal_char _ _ _ Lc). cbn [Js.starts_with_by].
    destruct s as [| d s]; [ reflexivity | ]. now rewrite (IH _ Lx).
Qed.

(** For a text [x] free of [%], [_] and backslash, [LIKE '%x%'] is "contains
    [x]", the characters compared as the collation compares them. *)
Lemma like_contains (x s : string) :
  literal x = true ->
  like ("%" ++ x ++ "%") s = Js.contains_by char_equates s x.
Proof.
  intros L.
  change ("%" ++ x ++ "%")%string with (String "%" (x ++ "%")).
  induction s as [| c s IH]; rewrite like_percent_step; cbn [Js.contains_by];
    rewrite (like_literal_starts _ _ L); [ reflexivity | now rewrite IH ].
Qed.

(** ** The driver *)

Lemma pool_execute_unfold (s : Stmt) (w : World) :
  pool_execute s w =
  let w1 := mkWorld (storage w) (clock w) (tl (faults w))
                    (journal w ++ [Execute Pool s]) (process w) in
  let ran :=
    match storage w with
    | NoDatabase => (inl UnknownDatabase, w1)
    | NoTable =>
        match s with
        | CreateTable =>
            (inr (ResultHeader 0 0%Z), store (HasTable empty_table) w1)
        | CreateDatabase => (inr (ResultHeader 0 0%Z), w1)
        | _ => (inl NoSuchTable, w1)
        end
    | HasTable t =>
        (fst (Sql.run (clock w) s t),
         store (HasTable (snd (Sql.run (clock w) s t))) w1)
    end in
  match faults w with
  | Refused :: _ => (inl ConnectionLost, w1)
  | Dropped :: _ => (inl ConnectionLost, snd ran)
  | _ => ran
  end.
Proof.
  unfold pool_execute, call. cbv zeta. cbn [storage clock].
  destruct (faults w) as [| [| |] fs]; try reflexivity;
    destruct (storage w); try reflexivity;
    destruct (Sql.run (clock w) s t); reflexivity.
Qed.

Lemma pool_execute_answers (s : Stmt) (t : Table) (now : Z)
    (jr : list Event) (pr : Process) :
  pool_execute s (mkWorld (HasTable t) now [] jr pr) =
  (fst (Sql.run now s t),
   mkWorld (HasTable (snd (Sql.run now s t))) now []
           (jr ++ [Execute Pool s]) pr).
Proof. rewrite pool_execute_unfold. reflexivity. Qed.

Lemma pool_execute_footprint (s : Stmt) (w : World) :
  let w' := snd (pool_execute s w) in
  process w' = process w /\ clock w' = clock w /\
  journal w' = (journal w ++ [Execute Pool s])%list /\
  faults w' = tl (faults w).
Proof.
  rewrite pool_execute_unfold. cbv zeta.
  destruct (faults w) as [| [| |] fs];
    destruct (storage w); try destruct s; cbn; auto.
Qed.

Lemma run_failed (now : Z) (s : Stmt) (t : Table) (e : Error) (t' : Table) :
  Sql.run now s t = (inl e, t') -> t' = t.
Proof.
  destruct s as [| | cs o | vn ve vd vs | i]; cbn [Sql.run];
    try (intros H; inversion H; reflexivity).
  - destruct (compile_where cs); intros H; inversion H; reflexivity.
  - destruct (new_row vn ve vd vs) as [x | [[[n e'] d] st]];
      [ | destruct (auto_increment t <=? int_max)%positive ];
      intros H; inversion H; reflexivity.
Qed.

Lemma to_status_text (st : Status) : to_status (status_text st) = Some st.
Proof. now destruct st. Qed.

Lemma to_status_some (s : string) (st : Status) :
  to_status s = Some st -> s = status_text st.
Proof.
  unfold to_status.
  destruct (String.eqb_spec s "Present") as [-> | _];
    [ intros E; inversion E; reflexivity | ].
  destruct (String.eqb_spec s "Absent") as [-> | _];
    [ intros E; inversion E; reflexivity | discriminate ].
Qed.

(** What an INSERT that the server has run with success was given, and what
    it has stored. *)
Lemma run_inserted (now : Z) (vn ve vd vs : Js.Value) (t t' : Table)
    (res : Result) :
  Sql.run now (Insert vn ve vd vs) t = (inr res, t') ->
  exists (n e ds : string) (d : Date) (st : Status) (n' e' : string),
    vn = Js.Str n /\ ve = Js.Str e /\ vd = Js.Str ds /\
    vs = Js.Str (status_text st) /\
    fit 255 n = Some n' /\ fit 100 e = Some e' /\ read_date ds = Some d /\
    (auto_increment t <= int_max)%positive /\
    res = ResultHeader 1 (Zpos (auto_increment t)) /\
    t' = mkTable (rows t ++ [mkRow (auto_increment t) n' e' d st now])
                 (Pos.succ (auto_increment t)).
Proof.
  cbn [Sql.run].
  destruct (new_row vn ve vd vs) as [x | [[[n' e'] d] st]] eqn:N;
    [ discriminate | ].
  destruct (Pos.leb_spec (auto_increment t) int_max) as [B | B];
    [ | discriminate ].
  intros H. inversion H; subst. clear H.
  unfold new_row in N.
  destruct vn as [| | n]; try discriminate;
    destruct ve as [| | e]; try discriminate;
    destruct vd as [| | ds]; try discriminate;
    destruct vs as [| | s]; try discriminate.
  destruct (fit 255 n) as [n1 |] eqn:Fn; [ | discriminate ].
  destruct (fit 100 e) as [e1 |] eqn:Fe; [ | discriminate ].
  destruct (read_date ds) as [d1 |] eqn:Dd; [ | discriminate ].
  destruct (to_status s) as [s1 |] eqn:Ss; [ | discriminate ].
  inversion N; subst. apply to_status_some in Ss. subst s.
  exists n, e, ds, d, st, n', e'. repeat split; auto.
Qed.

(** A SELECT changes nothing, answered or not. *)
Lemma pool_select (cs : list Cond) (o : bool) (w w' : World)
    (x : Error + Result) :
  pool_execute (Select cs o) w = (x, w') ->
  storage w' = storage w /\ clock w' = clock w /\
  forall res, x = inr res ->
    exists (t : Table) (f : Row -> bool),
      storage w = HasTable t /\ compile_where cs = inr f /\
      result_rows res =
      if o then order_by (filter f (rows t)) else filter f (rows t).
Proof.
  rewrite pool_execute_unfold. cbv zeta.
  destruct (faults w) as [| [| |] fs];
    try (intros H; inversion H; subst; cbn;
         repeat split; intros; discriminate);
    (destruct (storage w) as [| | t] eqn:S;
     try (intros H; inversion H; subst; cbn;
          repeat split; auto; intros; discriminate));
    cbn [Sql.run]; destruct (compile_where cs) as [e | f] eqn:C;
    intros H; inversion H; subst; cbn;
    (repeat split; auto; intros res E; inversion E; subst);
    exists t, f; auto.
Qed.

(** An INSERT leaves the storage as it is or appends its row, and it may
    have appended it without having been answered. *)
Lemma pool_insert (vn ve vd vs : Js.Value) (w w' : World)
    (x : Error + Result) :
  pool_execute (Insert vn ve vd vs) w = (x, w') ->
  (storage w' = storage w /\ forall res, x <> inr res) \/
  exists (t : Table) (n e ds : string) (d : Date) (st : Status)
         (n' e' : string),
    storage w = HasTable t /\
    vn = Js.Str n /\ ve = Js.Str e /\ vd = Js.Str ds /\
    vs = Js.Str (status_text st) /\
    fit 255 n = Some n' /\ fit 100 e = Some e' /\ read_date ds = Some d /\
    (auto_increment t <= int_max)%positive /\
    (forall res, x = inr res ->
                 res = ResultHeader 1 (Zpos (auto_increment t))) /\
    storage w' =
    HasTable (mkTable (rows t ++ [mkRow (auto_increment t) n' e' d st (clock w)])
                      (Pos.succ (auto_increment t))).
Proof.
  rewrite pool_execute_unfold. cbv zeta.
  assert (Ran : forall t (w1 : World) y,
             storage w = HasTable t ->
             y = inl ConnectionLost \/
             y = fst (Sql.run (clock w) (Insert vn ve vd vs) t) ->
             (y, store (HasTable (snd (Sql.run (clock w)
                                         (Insert vn ve vd vs) t))) w1)
             = (x, w') ->
             (storage w' = storage w /\ forall res, x <> inr res) \/
             exists (t : Table) (n e ds : string) (d : Date) (st : Status)
                    (n' e' : string),
               storage w = HasTable t /\
               vn = Js.Str n /\ ve = Js.Str e /\ vd = Js.Str ds /\
               vs = Js.Str (status_text st) /\
               fit 255 n = Some n' /\ fit 100 e = Some e' /\
               read_date ds = Some d /\
               (auto_increment t <= int_max)%positive /\
               (forall res, x = inr res ->
                            res = ResultHeader 1 (Zpos (auto_increment t))) /\
               storage w' =
               HasTable (mkTable (rows t ++ [mkRow (auto_increment t) n' e' d
                                                   st (clock w)])
                                 (Pos.succ (auto_increment t)))).
  { intros t w1 y St Y.
    destruct (Sql.run (clock w) (Insert vn ve vd vs) t) as [[e0 | res0] t']
      eqn:R; cbn [fst snd] in *; intros H; inversion H; subst x w'; clear H;
      unfold store; cbn [storage].
    - left. apply run_failed in R. subst t'. split; [ now rewrite St | ].
      intros res. destruct Y as [-> | ->]; discriminate.
    - right. apply run_inserted in R
        as (n & e & ds & d & st & n' & e' & En & Ee & Ed & Es & Fn & Fe & Dd
            & B & Rr & Tt).
      exists t, n, e, ds, d, st, n', e'. subst t'.
      repeat split; auto.
      intros res E. destruct Y as [-> | ->]; [ discriminate | ].
      inversion E; subst. reflexivity. }
  destruct (faults w) as [| [| |] fs];
    (destruct (storage w) as [| | t] eqn:S;
     [ intros H; inversion H; subst; left; split;
       [ cbn; auto | intros; discriminate ]
     | intros H; inversion H; subst; left; split;
       [ cbn; auto | intros; discriminate ]
     | ]).
  - apply (Ran t); auto.
  - apply (Ran t); auto.
  - intros H; inversion H; subst; left; split;
      [ cbn; auto | intros; discriminate ].
  - cbn [snd]. apply (Ran t); auto.
Qed.

(** A DELETE leaves the storage as it is or removes the rows of its id, and
    it may have removed them without having been answered. *)
Lemma pool_delete (i : Z) (w w' : World) (x : Error + Result) :
  pool_execute (Delete i) w = (x, w') ->
  (storage w' = storage w /\ forall res, x <> inr res) \/
  exists t : Table,
    storage w = HasTable t /\
    storage w' =
    HasTable (mkTable (filter (fun r => negb (Zpos (id r) =? i)%Z) (rows t))
                      (auto_increment t)) /\
    forall res, x = inr res ->
      affectedRows res =
      List.length (rows t)
      - List.length (filter (fun r => negb (Zpos (id r) =? i)%Z) (rows t)).
Proof.
  rewrite pool_execute_unfold. cbv zeta.
  destruct (faults w) as [| [| |] fs];
    (destruct (storage w) as [| | t] eqn:S;
     [ intros H; inversion H; subst; left; split;
       [ cbn; auto | intros; discriminate ]
     | intros H; inversion H; subst; left; split;
       [ cbn; auto | intros; discriminate ]
     | ]);
    cbn [Sql.run fst snd]; intros H; inversion H; subst;
    try solve [ left; split; [ reflexivity | intros; discriminate ] ];
    right; exists t; cbn;
    (repeat split; auto; intros res E; inversion E; reflexivity).
Qed.

Lemma compile_where_nil_run (now : Z) (t : Table) :
  Sql.run now (Select [] true) t = (inr (ResultRows (order_by (rows t))), t).
Proof.
  simpl. f_equal. f_equal. f_equal.
  induction (rows t) as [| r l IH]; simpl; congruence.
Qed.

Lemma get_attendance_serving (t : Table) (now : Z) (jr : list Event)
    (pr : Process) :
  get_attendance (mkWorld (HasTable t) now [] jr pr) =
  (inr (mkResponse 200 (Records (order_by (rows t)))),
   mkWorld (HasTable t) now [] (jr ++ [Execute Pool (Select [] true)]) pr).
Proof.
  unfold get_attendance, try_catch, bind.
  rewrite pool_execute_answers, compile_where_nil_run. reflexivity.
Qed.

(** C6. For every state of the attendance table, list-all (GET
    /api/attendance), on a storage layer that answers, returns 200 with all
    the stored records (a permutation of the table, which it leaves as it
    is), sorted by date descending and, within a date, by creation time
    descending. *)
Theorem list_all_returns_every_record_sorted (t : Table) (now : Z) :
  exists (l : list Row) (w' : World),
    get_attendance (serving t now) = (inr (mkResponse 200 (Records l)), w') /\
    table_of w' = Some t /\
    Permutation l (rows t) /\
    StronglySorted listed_before l.
Proof.
  unfold serving. rewrite get_attendance_serving.
  eexists; eexists; split; [ reflexivity | ].
  split; [ reflexivity | ].
  split; [ apply order_by_perm | apply order_by_sorted ].
Qed.

(** ** Create *)

Lemma truthy_str (s : string) : s <> "" -> Js.truthy (Js.Str s) = true.
Proof.
  intros N. simpl. apply negb_true_iff. now apply String.eqb_neq.
Qed.

Lemma truthy_false (v : Js.Value) : Js.truthy v = false <-> missing_or_empty v.
Proof.
  unfold missing_or_empty. destruct v as [| | s]; simpl.
  - split; auto.
  - split; auto.
  - rewrite negb_false_iff, String.eqb_eq. split.
    + intros ->. auto.
    + intros [H | [H | H]]; congruence.
Qed.

Lemma includes_status_text (st : Status) :
  Js.includes [Js.Str "Present"; Js.Str "Absent"] (Js.Str (status_text st)) = true.
Proof. now destruct st. Qed.

Lemma includes_allowed (v : Js.Value) :
  Js.includes [Js.Str "Present"; Js.Str "Absent"] v = true <-> status_allowed v.
Proof.
  unfold status_allowed, Js.includes.
  destruct v as [| | s]; cbn [existsb Js.strict_eqb orb].
  - split; [ discriminate | intros [H | H]; discriminate ].
  - split; [ discriminate | intros [H | H]; discriminate ].
  - rewrite orb_false_r, orb_true_iff, !String.eqb_eq. split.
    + intros [<- | <-]; auto.
    + intros [H | H]; inversion H; auto.
Qed.

Lemma to_date_nonempty (s : string) (d : Date) : to_date s = Some d -> s <> "".
Proof. intros H ->. discriminate. Qed.

Lemma same_key_spec (e : string) (d : Date) (tm : nat) (r : Row) :
  same_key e d tm r = true <->
  equates (employeeID r) e = true /\ date r = d /\ tm = 0.
Proof.
  unfold same_key.
  rewrite andb_true_r, !andb_true_iff, date_eqb_eq, Nat.eqb_eq. tauto.
Qed.

(** No record of the day for that employee: the existence check finds
    nothing, whatever the time of day read in the date. *)
Lemma unrecorded_check (e : string) (d : Date) (tm : nat) (t : Table) :
  unrecorded e d t -> forall r, In r (rows t) -> same_key e d tm r = false.
Proof.
  intros U r I. destruct (same_key e d tm r) eqn:K; [ | reflexivity ].
  apply same_key_spec in K as (Q & Dd & _). now destruct (U r I Q).
Qed.

Lemma duplicate_check_run (now : Z) (t : Table) (e ds : string) (d : Date)
    (tm : nat) :
  read_temporal ds = Some (d, tm) ->
  Sql.run now (Select [EmployeeIdEq (Js.Str e); DateEq (Js.Str ds)] false) t =
  (inr (ResultRows (filter (same_key e d tm) (rows t))), t).
Proof.
  intros H. cbn [Sql.run compile_where compile]. now rewrite H.
Qed.

Lemma filter_none {A : Type} (f : A -> bool) (l : list A) :
  (forall x, In x l -> f x = false) -> filter f l = [].
Proof.
  induction l as [| a l IH]; simpl; intros H; [ reflexivity | ].
  rewrite (H a) by auto. apply IH. intros x Hx. apply H. auto.
Qed.

Lemma filter_some {A : Type} (f : A -> bool) (l : list A) (x : A) :
  In x l -> f x = true -> (0 <? List.length (filter f l))%nat = true.
Proof.
  intros I F. assert (I' : In x (filter f l)) by (apply filter_In; auto).
  destruct (filter f l); [ destruct I' | reflexivity ].
Qed.

Lemma filter_nil_none {A : Type} (f : A -> bool) (l : list A) (x : A) :
  filter f l = [] -> In x l -> f x = false.
Proof.
  intros E I. destruct (f x) eqn:F; [ | reflexivity ].
  assert (I' : In x (filter f l)) by (apply filter_In; auto).
  rewrite E in I'. destruct I'.
Qed.

(** ** VARCHAR *)

Lemma fit_short (k : nat) (s : string) :
  String.length s <= k -> fit k s = Some s.
Proof. intros L. unfold fit. apply Nat.leb_le in L. now rewrite L. Qed.

Lemma take_length (k : nat) (s : string) : String.length (take k s) <= k.
Proof.
  revert s. induction k as [| k IH]; intros [| c s]; simpl; try lia.
  specialize (IH s). lia.
Qed.

Lemma fit_stored (k : nat) (s s' : string) :
  0 < k -> s <> "" -> fit k s = Some s' ->
  s' <> "" /\ String.length s' <= k.
Proof.
  intros K N. unfold fit.
  destruct (Nat.leb_spec (String.length s) k) as [L | L].
  - intros E; inversion E; subst. auto.
  - destruct (all_spaces (drop k s)); [ | discriminate ].
    intros E; inversion E; subst. split; [ | apply take_length ].
    destruct k as [| k]; [ lia | ]. destruct s; [ congruence | discriminate ].
Qed.

Lemma insert_run (now : Z) (t : Table) (n e ds : string) (d : Date)
    (st : Status) (n' e' : string) :
  fit 255 n = Some n' -> fit 100 e = Some e' -> read_date ds = Some d ->
  (auto_increment t <= int_max)%positive ->
  Sql.run now
    (Insert (Js.Str n) (Js.Str e) (Js.Str ds) (Js.Str (status_text st))) t =
  (inr (ResultHeader 1 (Zpos (auto_increment t))),
   mkTable (rows t ++ [mkRow (auto_increment t) n' e' d st now])
           (Pos.succ (auto_increment t))).
Proof.
  intros Fn Fe Dd B. cbn [Sql.run new_row].
  rewrite Fn, Fe, Dd, to_status_text.
  apply Pos.leb_le in B. now rewrite B.
Qed.

(** A valid body passes both validations. *)
Lemma post_attendance_validated (n e ds : string) (st : Status) (w : World) :
  n <> "" -> e <> "" -> ds <> "" ->
  post_attendance
    (mkCreateBody (Js.Str n) (Js.Str e) (Js.Str ds) (Js.Str (status_text st))) w =
  try_catch
    (existing <- pool_execute
                   (Select [EmployeeIdEq (Js.Str e); DateEq (Js.Str ds)] false) ;;
     if (0 <? List.length (result_rows existing))%nat
     then status_json 400
            (Failure "Attendance already recorded for this employee on the selected date")
     else
       result <- pool_execute
                   (Insert (Js.Str n) (Js.Str e) (Js.Str ds)
                           (Js.Str (status_text st))) ;;
       status_json 201
         (Created "Attendance recorded successfully" (insertId result)))
    (fun _ => status_json 500 (Failure "Failed to record attendance")) w.
Proof.
  intros Nn Ne Nd. unfold post_attendance, create_attendance.
  cbn [body_employeeName body_employeeID body_date body_status].
  rewrite (truthy_str n Nn), (truthy_str e Ne), (truthy_str ds Nd).
  rewrite includes_status_text.
  assert (T : Js.truthy (Js.Str (status_text st)) = true) by now destruct st.
  rewrite T. reflexivity.
Qed.

(** A valid Create on a storage layer that answers, when the existence
    check finds nothing. *)
Lemma post_attendance_answers
    (t : Table) (now : Z) (jr : list Event) (pr : Process)
    (n e ds : string) (d d' : Date) (tm : nat) (st : Status)
    (n' e' : string) :
  n <> "" -> e <> "" -> ds <> "" ->
  fit 255 n = Some n' -> fit 100 e = Some e' ->
  read_date ds = Some d -> read_temporal ds = Some (d', tm) ->
  (forall r, In r (rows t) -> same_key e d' tm r = false) ->
  (auto_increment t <= int_max)%positive ->
  post_attendance
    (mkCreateBody (Js.Str n) (Js.Str e) (Js.Str ds) (Js.Str (status_text st)))
    (mkWorld (HasTable t) now [] jr pr) =
  (inr (mkResponse 201
          (Created "Attendance recorded successfully"
                   (Zpos (auto_increment t)))),
   mkWorld
     (HasTable (mkTable (rows t ++ [mkRow (auto_increment t) n' e' d st now])
                        (Pos.succ (auto_increment t))))
     now []
     ((jr ++ [Execute Pool
                (Select [EmployeeIdEq (Js.Str e); DateEq (Js.Str ds)] false)])
      ++ [Execute Pool
            (Insert (Js.Str n) (Js.Str e) (Js.Str ds)
                    (Js.Str (status_text st)))])
     pr).
Proof.
  intros Nn Ne Nd Fn Fe Dd Dt Fresh B.
  rewrite post_attendance_validated by assumption.
  unfold try_catch, bind.
  rewrite pool_execute_answers, (duplicate_check_run _ _ _ _ _ _ Dt).
  cbn [fst snd result_rows].
  rewrite (filter_none _ _ Fresh).
  cbn [List.length Nat.ltb Nat.leb].
  rewrite pool_execute_answers, (insert_run _ _ _ _ _ _ _ _ _ Fn Fe Dd B).
  reflexivity.
Qed.


(** C1 (as amended). For every Create request whose employeeName (at most
    255 characters), employeeID (at most 100 characters), date and status are
    present and non-empty, whose date is a text that the server reads as a
    day, whose status is Present or Absent, and for which no record exists of
    that day with an employeeID that the collation of the column equates
    with the request's, POST /api/attendance, on a storage layer that
    answers and whose id counter has not passed the largest INT, appends
    exactly one record, answers 201 with the generated id, a positive
    integer, and every later list-all returns that record. *)
Theorem create_valid_record_is_inserted
    (t : Table) (now : Z) (n e ds : string) (d : Date) (st : Status) :
  n <> "" -> e <> "" -> ds <> "" ->
  String.length n <= 255 -> String.length e <= 100 ->
  reads_as ds d ->
  unrecorded e d t ->
  (auto_increment t <= int_max)%positive ->
  let i := auto_increment t in
  let r := mkRow i n e d st now in
  exists w' : World,
    post_attendance
      (mkCreateBody (Js.Str n) (Js.Str e) (Js.Str ds)
                    (Js.Str (status_text st)))
      (serving t now) =
    (inr (mkResponse 201
            (Created "Attendance recorded successfully" (Zpos i))),
     w') /\
    (0 < Zpos i)%Z /\
    table_of w' = Some (mkTable (rows t ++ [r]) (Pos.succ i)) /\
    forall after : Z,
    exists (l : list Row) (w'' : World),
      get_attendance (at_time after w') =
      (inr (mkResponse 200 (Records l)), w'') /\ In r l.
Proof.
  intros Nn Ne Nd Ln Le (Dd & tm & Dt) Fresh B i r.
  unfold serving.
  rewrite (post_attendance_answers t now [] Listening n e ds d d tm st n e
             Nn Ne Nd (fit_short _ _ Ln) (fit_short _ _ Le) Dd Dt
             (unrecorded_check _ _ _ _ Fresh) B).
  eexists. split; [ reflexivity | ].
  split; [ reflexivity | ].
  split; [ reflexivity | ].
  intros after. unfold at_time. cbn [storage faults journal process].
  rewrite get_attendance_serving.
  eexists; eexists. split; [ reflexivity | ].
  eapply Permutation_in; [ symmetry; apply order_by_perm | ].
  cbn [rows]. apply in_or_app. right. now left.
Qed.


(** C8. Every request to GET /api/health is answered 200 with the static
    status OK, a timestamp and the version; the handler makes no call to the
    storage layer (the world, journal included, is left as it is), and the
    response code is the same in every state of the storage, reachable or
    not. *)
Theorem health_is_static (w : World) :
  health w =
  (inr (mkResponse 200
          (Health "OK" "Server is running" (clock w) "Connected" "1.0.0")),
   w) /\
  forall (s : Storage) (fs : list Fate),
    fst (health (mkWorld s (clock w) fs (journal w) (process w))) =
    fst (health w).
Proof. split; reflexivity. Qed.

(** ** Filter *)

Lemma push_if_unblank (q : option string) (c : string -> Cond)
    (conds : list Cond) :
  push_if (unblank q) c conds = push_if q c conds.
Proof.
  destruct q as [s |]; simpl; [ | reflexivity ].
  destruct (String.eqb s "") eqn:E; simpl; [ reflexivity | now rewrite E ].
Qed.

Lemma filter_conds_without_blanks (q : Query) :
  filter_conds (without_blanks q) = filter_conds q.
Proof.
  unfold filter_conds, without_blanks.
  cbn [query_date query_employeeName query_employeeID].
  now rewrite !push_if_unblank.
Qed.

Lemma push_if_blank (q : option string) (c : string -> Cond)
    (conds : list Cond) :
  blank q -> push_if q c conds = conds.
Proof. intros [-> | ->]; reflexivity. Qed.

(** C10. For every state of the attendance table, a Filter request whose
    parameters are each absent or the empty string is answered, on a storage
    layer that answers, exactly as list-all is: same records, same order,
    same state left behind.  More generally, in every world, an empty-string
    parameter is treated as not supplied: every query is handled as the
    query without its empty parameters. *)
Theorem blank_filter_is_list_all (t : Table) (now : Z) (q : Query) :
  blank (query_date q) ->
  blank (query_employeeName q) ->
  blank (query_employeeID q) ->
  filter_attendance q (serving t now) = get_attendance (serving t now) /\
  forall (q' : Query) (w : World),
    filter_attendance q' w = filter_attendance (without_blanks q') w.
Proof.
  intros Bd Bn Bi. split.
  - unfold filter_attendance, get_attendance, filter_conds.
    rewrite !push_if_blank by assumption.
    unfold serving, try_catch, bind. now rewrite pool_execute_answers.
  - intros q' w. unfold filter_attendance.
    now rewrite filter_conds_without_blanks.
Qed.

Lemma compile_filter_conds (q : Query) :
  (forall s, query_date q = Some s -> s <> "" -> read_temporal s <> None) ->
  exists f : Row -> bool,
    compile_where (filter_conds q) = inr f /\
    forall r, f r = sql_match q r.
Proof.
  destruct q as [qd qn qi].
  unfold filter_conds, push_if, sql_match, on_param, dated.
  cbn [query_date query_employeeName query_employeeID].
  intros Hd.
  destruct qd as [sd |]; [ destruct (String.eqb sd "") eqn:Ed | ];
    (destruct qn as [sn |]; [ destruct (String.eqb sn "") eqn:En | ]);
    (destruct qi as [si |]; [ destruct (String.eqb si "") eqn:Ei | ]);
    cbn [negb app compile_where compile];
    try (destruct (read_temporal sd) as [[d tm] |] eqn:Dt;
         [ | exfalso; apply (Hd sd eq_refl);
             [ now apply String.eqb_neq | exact Dt ] ]);
    eexists; (split; [ reflexivity | ]); intros r; cbn beta;
    rewrite ?andb_true_r, ?andb_assoc; reflexivity.
Qed.

Lemma sql_match_plain (q : Query) (r : Row) :
  plain_query q -> sql_match q r = collated_match q r.
Proof.
  destruct q as [qd qn qi]. unfold plain_query, sql_match, collated_match.
  cbn [query_date query_employeeName query_employeeID].
  intros [_ [Hn Hi]].
  f_equal; [ f_equal | ].
  - destruct qn as [s |]; unfold on_param; [ | reflexivity ].
    now rewrite like_contains by auto.
  - destruct qi as [s |]; unfold on_param; [ | reflexivity ].
    now rewrite like_contains by auto.
Qed.

Lemma filter_attendance_answers
    (t : Table) (now : Z) (jr : list Event) (pr : Process) (q : Query) :
  (forall s, query_date q = Some s -> s <> "" -> read_temporal s <> None) ->
  filter_attendance q (mkWorld (HasTable t) now [] jr pr) =
  (inr (mkResponse 200
          (Records (filter (sql_match q) (order_by (rows t))))),
   mkWorld (HasTable t) now []
           (jr ++ [Execute Pool (Select (filter_conds q) true)]) pr).
Proof.
  intros Dq. destruct (compile_filter_conds q Dq) as [f [C F]].
  unfold filter_attendance, try_catch, bind.
  rewrite pool_execute_answers. cbn [Sql.run]. rewrite C.
  cbn [fst snd json ret result_rows].
  rewrite order_by_filter, (filter_ext f (sql_match q)) by exact F.
  reflexivity.
Qed.

(** C7 (as amended).  For every combination of supplied filter parameters in
    which a supplied date is a text that the server reads as a date and the
    supplied employeeName and employeeID hold none of the characters [%],
    [_] and backslash, Filter, on a storage layer that answers, returns 200
    with exactly the records that satisfy the conjunction of the supplied
    conditions (date by exact match, employeeName and employeeID by
    substring containment, the characters being compared as the collation of
    the columns compares them), sorted as list-all sorts, and leaves the
    table as it is. *)
Theorem filter_returns_matching_records (t : Table) (now : Z) (q : Query) :
  plain_query q ->
  exists (l : list Row) (w' : World),
    filter_attendance q (serving t now) =
    (inr (mkResponse 200 (Records l)), w') /\
    table_of w' = Some t /\
    Permutation l (filter (collated_match q) (rows t)) /\
    StronglySorted listed_before l.
Proof.
  intros P. unfold serving.
  rewrite (filter_attendance_answers _ _ _ _ _ (proj1 P)).
  eexists; eexists. split; [ reflexivity | ].
  split; [ reflexivity | ].
  rewrite (filter_ext (sql_match q) (collated_match q))
    by (intros r; now apply sql_match_plain).
  rewrite <- order_by_filter.
  split; [ apply order_by_perm | apply order_by_sorted ].
Qed.

(** ** What each handler does to the storage, in any world *)

(** Create leaves the storage as it is, or appends one row: what the
    columns keep of the name and of the employeeID of its body, and the day
    stored for its date, after an existence check that found nothing. *)
Lemma post_attendance_effect (b : CreateBody) (w : World) :
  storage (snd (post_attendance b w)) = storage w \/
  exists (t : Table) (n e ds : string) (d d' : Date) (tm : nat)
         (st : Status) (n' e' : string),
    storage w = HasTable t /\
    b = mkCreateBody (Js.Str n) (Js.Str e) (Js.Str ds)
                     (Js.Str (status_text st)) /\
    n <> "" /\ e <> "" /\
    fit 255 n = Some n' /\ fit 100 e = Some e' /\
    read_date ds = Some d /\ read_temporal ds = Some (d', tm) /\
    (forall r, In r (rows t) -> same_key e d' tm r = false) /\
    storage (snd (post_attendance b w)) =
    HasTable (mkTable (rows t ++ [mkRow (auto_increment t) n' e' d st (clock w)])
                      (Pos.succ (auto_increment t))).
Proof.
  unfold post_attendance, create_attendance, try_catch. cbv zeta.
  destruct (Js.truthy (body_employeeName b)) eqn:T1; [ | now left ].
  destruct (Js.truthy (body_employeeID b)) eqn:T2; [ | now left ].
  destruct (Js.truthy (body_date b)) eqn:T3; [ | now left ].
  destruct (Js.truthy (body_status b)) eqn:T4; [ | now left ].
  cbn [negb orb].
  destruct (negb (Js.includes [Js.Str "Present"; Js.Str "Absent"]
                              (body_status b))); [ now left | ].
  unfold bind.
  destruct (pool_execute
              (Select [EmployeeIdEq (body_employeeID b); DateEq (body_date b)]
                      false) w) as [[e1 | res1] w1] eqn:P1;
    apply pool_select in P1 as (S1 & C1 & R1); [ left; exact S1 | ].
  destruct (R1 _ eq_refl) as (t & f & St & Cf & Rr).
  destruct (0 <? List.length (result_rows res1))%nat eqn:Z;
    [ left; exact S1 | ].
  destruct (pool_execute
              (Insert (body_employeeName b) (body_employeeID b)
                      (body_date b) (body_status b)) w1) as [x w2] eqn:P2.
  match goal with
  | |- context [snd ?o] => replace (snd o) with w2 by (now destruct x)
  end.
  apply pool_insert in P2
    as [(S2 & _)
       | (t' & n & e & ds & d & st & n' & e' & St' & En & Ee & Ed & Es & Fn
          & Fe & Dd & B & _ & S2)].
  - left. congruence.
  - right. assert (t' = t) by congruence. subst t'.
    rewrite Ee, Ed in Cf. cbn [compile_where compile] in Cf.
    destruct (read_temporal ds) as [[d' tm] |] eqn:Dt; [ | discriminate ].
    exists t, n, e, ds, d, d', tm, st, n', e'.
    destruct b as [vn ve vd vs]; cbn in En, Ee, Ed, Es, T1, T2. subst.
    split; [ congruence | ].
    split; [ reflexivity | ].
    split; [ intros ->; discriminate | ].
    split; [ intros ->; discriminate | ].
    repeat (split; [ assumption | ]).
    split; [ | rewrite S2, C1; reflexivity ].
    intros r I. inversion Cf; subst f.
    destruct (filter _ (rows t)) eqn:F in Rr.
    + apply (filter_nil_none _ _ r F I).
    + rewrite Rr in Z. discriminate.
Qed.

Lemma get_attendance_storage (w : World) :
  storage (snd (get_attendance w)) = storage w.
Proof.
  unfold get_attendance, try_catch, bind.
  destruct (pool_execute (Select [] true) w) as [[e | res] w1] eqn:P;
    apply pool_select in P as [S _]; exact S.
Qed.

Lemma filter_attendance_storage (q : Query) (w : World) :
  storage (snd (filter_attendance q w)) = storage w.
Proof.
  unfold filter_attendance, try_catch, bind.
  destruct (pool_execute (Select (filter_conds q) true) w)
    as [[e | res] w1] eqn:P;
    apply pool_select in P as [S _]; exact S.
Qed.

Lemma delete_attendance_storage (i : Z) (w : World) :
  storage (snd (delete_attendance i w)) = storage w \/
  exists t : Table,
    storage w = HasTable t /\
    storage (snd (delete_attendance i w)) =
    HasTable (mkTable (filter (fun r => negb (Zpos (id r) =? i)%Z) (rows t))
                      (auto_increment t)).
Proof.
  unfold delete_attendance, try_catch, bind.
  destruct (pool_execute (Delete i) w) as [x w1] eqn:P.
  apply pool_delete in P as [(S1 & _) | (t & St & S1 & _)].
  - left. destruct x as [e | res]; [ exact S1 | ].
    destruct (affectedRows res =? 0)%nat; exact S1.
  - right. exists t. split; [ exact St | ].
    destruct x as [e | res]; [ exact S1 | ].
    destruct (affectedRows res =? 0)%nat; exact S1.
Qed.

(** A request without a body is answered by the [catch] block of Create. *)
Lemma create_without_body (w : World) :
  create_attendance None w =
  (inr (mkResponse 500 (Failure "Failed to record attendance")), w).
Proof. reflexivity. Qed.

(** No handler lets an exception out. *)
Lemma handle_responds (r : Request) (w : World) :
  exists resp : Response, fst (handle r w) = inr resp.
Proof.
  destruct r as [| b | | i | q |]; cbn [handle].
  - unfold get_attendance, try_catch, bind.
    destruct (pool_execute _ w) as [[e | res] w1]; eexists; reflexivity.
  - unfold post_attendance, create_attendance, try_catch, bind. cbv zeta.
    repeat match goal with
           | |- context [if ?c then _ else _] => destruct c
           | |- context [pool_execute ?s ?v] =>
               destruct (pool_execute s v) as [[? | ?] ?]
           end; eexists; reflexivity.
  - eexists; reflexivity.
  - unfold delete_attendance, try_catch, bind.
    destruct (pool_execute _ w) as [[e | res] w1];
      [ | destruct (affectedRows res =? 0)%nat ]; eexists; reflexivity.
  - unfold filter_attendance, try_catch, bind.
    destruct (pool_execute _ w) as [[e | res] w1]; eexists; reflexivity.
  - eexists; reflexivity.
Qed.

(** ** Delete *)

Lemma filter_keeps_all {A : Type} (f : A -> bool) (l : list A) :
  (forall x, In x l -> f x = true) -> filter f l = l.
Proof.
  induction l as [| a l IH]; simpl; intros H; [ reflexivity | ].
  rewrite (H a) by auto. f_equal. apply IH. intros x Hx. apply H. auto.
Qed.

Lemma filter_shorter {A : Type} (f : A -> bool) (l : list A) :
  List.length (filter f l) <= List.length l.
Proof.
  induction l as [| a l IH]; simpl; [ lia | ].
  destruct (f a); simpl; lia.
Qed.

Lemma filter_drops {A : Type} (f : A -> bool) (l : list A) (x : A) :
  In x l -> f x = false -> List.length (filter f l) < List.length l.
Proof.
  induction l as [| a l IH]; simpl; intros I F; [ destruct I | ].
  destruct I as [-> | I].
  - rewrite F. pose proof (filter_shorter f l). lia.
  - specialize (IH I F). destruct (f a); simpl; lia.
Qed.

(** With a primary key, exactly one row goes. *)
Lemma filter_drops_one (i : Z) (l : list Row) :
  NoDup (map id l) -> (exists r, In r l /\ Zpos (id r) = i) ->
  S (List.length (filter (fun r => negb (Zpos (id r) =? i)%Z) l)) =
  List.length l.
Proof.
  induction l as [| a l IH]; intros N (r & I & E); [ destruct I | ].
  apply NoDup_cons_iff in N as [Nin N'].
  cbn [filter map List.length] in *.
  destruct (Z.eqb_spec (Zpos (id a)) i) as [Q | Q]; cbn [negb List.length].
  - f_equal. f_equal. apply filter_keeps_all. intros x Hx.
    apply negb_true_iff, Z.eqb_neq. intros Q'.
    apply Nin. apply in_map_iff. exists x. split; [ congruence | exact Hx ].
  - f_equal. apply IH; [ exact N' | ].
    destruct I as [A | I]; [ congruence | now exists r ].
Qed.

(** Only list-all and Filter answer with records, and every record they
    answer with is stored. *)
Lemma listed_rows_are_stored (req : Request) (w w' : World) (resp : Response)
    (l : list Row) :
  handle req w = (inr resp, w') -> body resp = Records l ->
  exists t : Table, storage w = HasTable t /\ incl l (rows t).
Proof.
  assert (Sel : forall cs res f t, compile_where cs = inr f ->
                  result_rows res = order_by (filter f (rows t)) ->
                  incl (result_rows res) (rows t)).
  { intros cs res f t _ R x Hx. rewrite R in Hx.
    eapply Permutation_in in Hx; [ | apply order_by_perm ].
    now apply filter_In in Hx. }
  destruct req as [| b | | i | q |]; cbn [handle].
  - unfold get_attendance, try_catch, bind.
    destruct (pool_execute _ w) as [[e | res] w1] eqn:P;
      intros H B; inversion H; subst; cbn in B; try discriminate.
    apply pool_select in P as (_ & _ & R).
    destruct (R _ eq_refl) as (t & f & St & C & Rr).
    exists t. split; [ exact St | ]. inversion B; subst. eauto.
  - unfold post_attendance, create_attendance, try_catch, bind. cbv zeta.
    repeat match goal with
           | |- context [if ?c then _ else _] => destruct c
           | |- context [pool_execute ?s ?v] =>
               destruct (pool_execute s v) as [[? | ?] ?]
           end; intros H B; inversion H; subst; discriminate.
  - intros H B; inversion H; subst; discriminate.
  - unfold delete_attendance, try_catch, bind.
    destruct (pool_execute _ w) as [[e | res] w1];
      [ | destruct (affectedRows res =? 0)%nat ];
      intros H B; inversion H; subst; discriminate.
  - unfold filter_attendance, try_catch, bind.
    destruct (pool_execute _ w) as [[e | res] w1] eqn:P;
      intros H B; inversion H; subst; cbn in B; try discriminate.
    apply pool_select in P as (_ & _ & R).
    destruct (R _ eq_refl) as (t & f & St & C & Rr).
    exists t. split; [ exact St | ]. inversion B; subst. eauto.
  - intros H B; inversion H; subst; discriminate.
Qed.

Lemma delete_attendance_answers
    (t : Table) (now : Z) (jr : list Event) (pr : Process) (i : Z) :
  delete_attendance i (mkWorld (HasTable t) now [] jr pr) =
  ((if (List.length (rows t)
        - List.length (filter (fun r => negb (Zpos (id r) =? i)%Z) (rows t))
        =? 0)%nat
    then inr (mkResponse 404 (Failure "Record not found"))
    else inr (mkResponse 200 (Message "Record deleted successfully"))),
   mkWorld
     (HasTable (mkTable (filter (fun r => negb (Zpos (id r) =? i)%Z) (rows t))
                        (auto_increment t)))
     now [] (jr ++ [Execute Pool (Delete i)]) pr).
Proof.
  unfold delete_attendance, try_catch, bind.
  rewrite pool_execute_answers. cbn [Sql.run fst snd affectedRows].
  now destruct (_ =? 0)%nat.
Qed.

(** C5. For every id, DELETE /api/attendance/:id, on a storage layer that
    answers, removes the record with that id when there is one, and no other
    record, and answers 200; no later listing, list-all or Filter, returns a
    record with that id.  When no record has that id it answers 404 and the
    table is left as it is. *)
Theorem delete_by_id (t : Table) (now : Z) (i : Z) :
  let kept := filter (fun r => negb (Zpos (id r) =? i)%Z) (rows t) in
  ((exists r, In r (rows t) /\ Zpos (id r) = i) ->
   exists w' : World,
     delete_attendance i (serving t now) =
     (inr (mkResponse 200 (Message "Record deleted successfully")), w') /\
     table_of w' = Some (mkTable kept (auto_increment t)) /\
     (forall r, In r kept <-> In r (rows t) /\ Zpos (id r) <> i) /\
     (NoDup (map id (rows t)) ->
      S (List.length kept) = List.length (rows t)) /\
     forall (after : Z) (fs : list Fate) (req : Request) (resp : Response)
            (w'' : World) (l : list Row),
       handle req (mkWorld (storage w') after fs (journal w') (process w')) =
       (inr resp, w'') ->
       body resp = Records l ->
       forall r, In r l -> Zpos (id r) <> i) /\
  ((~ exists r, In r (rows t) /\ Zpos (id r) = i) ->
   exists w' : World,
     delete_attendance i (serving t now) =
     (inr (mkResponse 404 (Failure "Record not found")), w') /\
     table_of w' = Some t).
Proof.
  cbv zeta.
  assert (K : forall r, In r (filter (fun r => negb (Zpos (id r) =? i)%Z) (rows t))
                        <-> In r (rows t) /\ Zpos (id r) <> i).
  { intros r. rewrite filter_In, negb_true_iff, Z.eqb_neq. reflexivity. }
  pose proof (delete_attendance_answers t now [] Listening i) as Dl.
  change (mkWorld (HasTable t) now [] [] Listening) with (serving t now) in Dl.
  split.
  - intros [r [I E]].
    assert (L : List.length (filter (fun r => negb (Zpos (id r) =? i)%Z) (rows t))
                < List.length (rows t)).
    { apply (filter_drops _ _ r I). apply negb_false_iff. now apply Z.eqb_eq. }
    destruct (Nat.eqb_spec
                (List.length (rows t)
                 - List.length (filter (fun r => negb (Zpos (id r) =? i)%Z) (rows t)))
                0) as [Z0 | _]; [ lia | ].
    eexists. split; [ exact Dl | ].
    split; [ reflexivity | ].
    split; [ exact K | ].
    split; [ intros N; apply filter_drops_one; eauto | ].
    intros after fs req resp w'' l H B x Hx.
    destruct (listed_rows_are_stored _ _ _ _ _ H B) as (t' & St & In').
    cbn in St. inversion St; subst t'. cbn [rows] in In'.
    apply In' in Hx. now apply K in Hx.
  - intros None.
    assert (A : filter (fun r => negb (Zpos (id r) =? i)%Z) (rows t) = rows t).
    { apply filter_keeps_all. intros x Hx. apply negb_true_iff, Z.eqb_neq.
      intros E. apply None. now exists x. }
    rewrite A in Dl. rewrite Nat.sub_diag in Dl. cbn [Nat.eqb] in Dl.
    eexists. split; [ exact Dl | ]. cbn. now destruct t.
Qed.

(** ** Start-up *)

(** C9. Start-up is sequenced: no request is accepted before [startServer]
    has run; when the four driver calls of the schema bootstrap (connect,
    create the database if it does not exist, end the connection, create
    the table if it does not exist) succeed, they have all been made, in
    that order, before [app.listen], and the table exists when the process
    starts to listen; when one of them fails the process exits with status
    1, [app.listen] is never called and no request is ever accepted. *)
Theorem bootstrap_precedes_listening (s : Storage) (now : Z) (fs : list Fate) :
  let w' := snd (startServer (boot s now fs)) in
  (forall r : Request, fst (serve r (boot s now fs)) = None) /\
  (answers 4 fs ->
   process w' = Listening /\
   journal w' =
   [Connect; Execute Setup CreateDatabase; End_; Execute Pool CreateTable;
    Listen] /\
   exists t : Table, storage w' = HasTable t) /\
  ((exists k, k < 4 /\ nth k fs Answered <> Answered) ->
   process w' = Exited 1 /\ (1 <> 0)%Z /\
   ~ In Listen (journal w') /\
   forall r : Request, fst (serve r w') = None) /\
  (In Listen (journal w') ->
   answers 4 fs /\
   journal w' =
   [Connect; Execute Setup CreateDatabase; End_; Execute Pool CreateTable;
    Listen]).
Proof.
  cbv zeta. split; [ reflexivity | ].
  split; [ | split ].
  - intros A. each_fault A.
    destruct s;
      destruct fs as [| [| |] [| [| |] [| [| |] [| [| |] fs]]]];
      cbn in *; try discriminate;
      (split; [ reflexivity | split; [ reflexivity | eexists; reflexivity ] ]).
  - intros (k & Lt & F).
    destruct s;
      destruct fs as [| [| |] [| [| |] [| [| |] [| [| |] fs]]]];
      destruct k as [| [| [| [| k]]]]; cbn in F; try congruence; try lia;
      (split; [ reflexivity | split; [ lia | split; [ | reflexivity ] ] ]);
      cbn; intuition discriminate.
  - intros L.
    destruct s;
      destruct fs as [| [| |] [| [| |] [| [| |] [| [| |] fs]]]];
      cbn in L; try (exfalso; intuition discriminate);
      (split; [ | reflexivity ]);
      intros k Lt; destruct k as [| [| [| [| k]]]]; cbn; (reflexivity || lia).
Qed.

End Claims.

(* ===================================================================== *)
(** * Further properties of the handlers and of start-up *)
(* ===================================================================== *)

Import Behaviour.

Section Further.

Context {D : Dialect}.

(** ** What a handler changes *)

Lemma filter_same_length {A : Type} (f : A -> bool) (l : list A) :
  List.length (filter f l) = List.length l -> filter f l = l.
Proof.
  induction l as [| a l IH]; simpl; intros E; [ reflexivity | ].
  destruct (f a); simpl in E.
  - f_equal. apply IH. lia.
  - pose proof (filter_shorter f l). lia.
Qed.

(** X1. Whatever the state of the world and whatever becomes of the driver
    calls, a request that is answered 400 or 404 has changed nothing in the
    storage, and neither has list-all, Filter, the health check or a Create
    without a body, whatever they are answered. *)
Theorem reads_and_refusals_write_nothing (r : Request) (w w' : World)
    (resp : Response) :
  handle r w = (inr resp, w') ->
  code resp = 400 \/ code resp = 404 \/
  r = ListAll \/ (exists q, r = Filter q) \/ r = HealthCheck \/
  r = CreateWithoutBody ->
  storage w' = storage w.
Proof.
  intros H C.
  assert (E : w' = snd (handle r w)) by now rewrite H.
  destruct r as [| b | | i | q |]; cbn [handle] in *.
  - subst. apply get_attendance_storage.
  - assert (C' : code resp = 400 \/ code resp = 404).
    { destruct C as [C | [C | [C | [[q C] | [C | C]]]]];
        auto; discriminate. }
    clear C E. revert H.
    unfold post_attendance, create_attendance, try_catch, bind. cbv zeta.
    repeat match goal with
           | |- context [if ?c then _ else _] =>
               destruct c; try (intros H; inversion H; reflexivity)
           end.
    destruct (pool_execute _ w) as [[e1 | res1] w1] eqn:P1.
    + intros H; inversion H; subst. cbn in C'. destruct C'; discriminate.
    + apply pool_select in P1 as (S1 & _).
      destruct (0 <? List.length (result_rows res1))%nat;
        [ intros H; inversion H; subst; exact S1 | ].
      destruct (pool_execute _ w1) as [[e2 | res2] w2];
        intros H; inversion H; subst; cbn in C'; destruct C'; discriminate.
  - inversion H; subst. reflexivity.
  - assert (C' : code resp = 400 \/ code resp = 404).
    { destruct C as [C | [C | [C | [[q C] | [C | C]]]]];
        auto; discriminate. }
    clear C E. revert H. unfold delete_attendance, try_catch, bind.
    destruct (pool_execute (Delete i) w) as [[e | res] w1] eqn:P.
    + intros H; inversion H; subst. cbn in C'. destruct C'; discriminate.
    + apply pool_delete in P as [(_ & N) | (t & St & S1 & A)];
        [ now destruct (N res) | ].
      specialize (A res eq_refl).
      destruct (Nat.eqb_spec (affectedRows res) 0) as [Z0 | _];
        intros H; inversion H; subst;
        [ | cbn in C'; destruct C'; discriminate ].
      rewrite S1, St. f_equal.
      rewrite filter_same_length; [ now destruct t | ].
      pose proof (filter_shorter
                    (fun r => negb (Zpos (id r) =? i)%Z) (rows t)). lia.
  - subst. apply filter_attendance_storage.
  - inversion H; subst. reflexivity.
Qed.

(** ** Create, Delete, list-all and Filter when the storage does not answer *)

Lemma pool_refuses (s : Stmt) (w : World) :
  refuses w -> s <> CreateDatabase -> s <> CreateTable ->
  exists (e : Error) (w1 : World), pool_execute s w = (inl e, w1).
Proof.
  intros R N1 N2. rewrite pool_execute_unfold. cbv zeta.
  destruct R as [(f & fs & F & Nf) | [S | S]].
  - rewrite F. destruct f; [ congruence | eauto | eauto ].
  - rewrite S. destruct (faults w) as [| [| |] fs]; eauto.
  - rewrite S.
    destruct (faults w) as [| [| |] fs]; eauto;
      destruct s; try congruence; eauto.
Qed.

(** X2. When the storage does not answer the next statement (the driver
    call fails, or the database or the table is missing), list-all, Delete,
    Filter and a Create that passes validation each answer 500 with the
    message of their own [catch] block. *)
Theorem unanswered_statement_is_500 (w : World) :
  refuses w ->
  fst (get_attendance w) =
  inr (mkResponse 500 (Failure "Failed to fetch attendance records")) /\
  (forall i : Z,
      fst (delete_attendance i w) =
      inr (mkResponse 500 (Failure "Failed to delete record"))) /\
  (forall q : Query,
      fst (filter_attendance q w) =
      inr (mkResponse 500 (Failure "Failed to filter attendance records"))) /\
  (forall (n e ds : string) (st : Status),
      n <> "" -> e <> "" -> ds <> "" ->
      fst (post_attendance (text_body n e ds st) w) =
      inr (mkResponse 500 (Failure "Failed to record attendance"))).
Proof.
  intros R. repeat split.
  - unfold get_attendance, try_catch, bind.
    destruct (pool_refuses (Select [] true) w R) as (e & w1 & P);
      try discriminate.
    now rewrite P.
  - intros i. unfold delete_attendance, try_catch, bind.
    destruct (pool_refuses (Delete i) w R) as (e & w1 & P);
      try discriminate.
    now rewrite P.
  - intros q. unfold filter_attendance, try_catch, bind.
    destruct (pool_refuses (Select (filter_conds q) true) w R)
      as (e & w1 & P); try discriminate.
    now rewrite P.
  - intros n e ds st Nn Ne Nd. unfold text_body.
    rewrite post_attendance_validated by assumption.
    unfold try_catch, bind.
    destruct (pool_refuses
                (Select [EmployeeIdEq (Js.Str e); DateEq (Js.Str ds)] false)
                w R) as (x & w1 & P); try discriminate.
    now rewrite P.
Qed.

(** X3. Create sends two statements without a transaction.  When the
    existence check is answered and finds nothing but the INSERT fails, the
    answer is 500 and both statements have been sent.  The table is as it
    was when the INSERT failed before the server ran it; when the server ran
    it and the answer was lost, the record is stored all the same: a client
    told 500 cannot tell which. *)
Theorem unanswered_insert_is_500
    (t : Table) (now : Z) (f : Fate) (fs : list Fate) (jr : list Event)
    (pr : Process) (n e ds : string) (d : Date) (st : Status) :
  n <> "" -> e <> "" -> ds <> "" ->
  String.length n <= 255 -> String.length e <= 100 ->
  reads_as ds d ->
  unrecorded e d t ->
  (auto_increment t <= int_max)%positive ->
  f <> Answered ->
  post_attendance (text_body n e ds st)
    (mkWorld (HasTable t) now (Answered :: f :: fs) jr pr) =
  (inr (mkResponse 500 (Failure "Failed to record attendance")),
   mkWorld
     (HasTable
        match f with
        | Dropped =>
            mkTable (rows t ++ [mkRow (auto_increment t) n e d st now])
                    (Pos.succ (auto_increment t))
        | _ => t
        end)
     now fs
     (jr ++ [Execute Pool
               (Select [EmployeeIdEq (Js.Str e); DateEq (Js.Str ds)] false);
             Execute Pool
               (Insert (Js.Str n) (Js.Str e) (Js.Str ds)
                       (Js.Str (status_text st)))])
     pr).
Proof.
  intros Nn Ne Nd Ln Le (Dd & tm & Dt) Fresh B Nf. unfold text_body.
  rewrite post_attendance_validated by assumption.
  unfold try_catch, bind.
  rewrite pool_execute_unfold. cbv zeta.
  cbn [faults storage clock journal process tl].
  rewrite (duplicate_check_run _ _ _ _ _ _ Dt). unfold store.
  cbn [fst snd result_rows faults storage clock journal process].
  rewrite (filter_none _ _ (unrecorded_check _ _ _ _ Fresh)).
  cbn [List.length Nat.ltb Nat.leb].
  rewrite pool_execute_unfold. cbv zeta.
  cbn [faults storage clock journal process tl].
  rewrite (insert_run _ _ _ _ _ _ _ _ _
             (fit_short _ _ Ln) (fit_short _ _ Le) Dd B).
  unfold store. cbn [fst snd faults storage clock journal process].
  destruct f; [ congruence | | ];
    cbn [status_json ret]; now rewrite <- app_assoc.
Qed.

(** X4. Which 400 a Create with a parsed body gets, in every world: "All
    fields are required" when one of the four fields is missing or empty,
    whatever the status says; "Status must be Present or Absent" when the
    four fields are present and non-empty and the status is neither.  In
    both cases nothing is sent to the storage. *)
Theorem create_validation_messages (b : CreateBody) (w : World) :
  (missing_or_empty (body_employeeName b) \/
   missing_or_empty (body_employeeID b) \/
   missing_or_empty (body_date b) \/
   missing_or_empty (body_status b) ->
   post_attendance b w =
   (inr (mkResponse 400 (Failure "All fields are required")), w)) /\
  (~ missing_or_empty (body_employeeName b) /\
   ~ missing_or_empty (body_employeeID b) /\
   ~ missing_or_empty (body_date b) /\
   ~ missing_or_empty (body_status b) /\
   ~ status_allowed (body_status b) ->
   post_attendance b w =
   (inr (mkResponse 400 (Failure "Status must be Present or Absent")), w)).
Proof.
  rewrite <- !truthy_false, <- includes_allowed.
  unfold post_attendance, create_attendance, try_catch, bind. cbv zeta.
  destruct (Js.truthy (body_employeeName b));
    destruct (Js.truthy (body_employeeID b));
    destruct (Js.truthy (body_date b));
    destruct (Js.truthy (body_status b)); cbn [negb orb];
    try (split;
         [ reflexivity | intros (A & B & C & E & _); congruence ]).
  destruct (Js.includes [Js.Str "Present"; Js.Str "Absent"] (body_status b));
    cbn [negb].
  - split.
    + intros [H | [H | [H | H]]]; discriminate.
    + intros (_ & _ & _ & _ & H). now destruct H.
  - split.
    + intros [H | [H | [H | H]]]; discriminate.
    + reflexivity.
Qed.

(** ** What a handler does to the process *)

(** X5. In every world a handler sends at most two statements, all through
    the pool (list-all, Filter and Delete one, Create none, one or two, the
    health check none), each taking one entry of the failure schedule; it
    makes no other driver or process call, and leaves the clock and the
    state of the process as they were. *)
Theorem handler_footprint (r : Request) (w : World) :
  let w' := snd (handle r w) in
  process w' = process w /\ clock w' = clock w /\
  exists evs : list Event,
    journal w' = (journal w ++ evs)%list /\
    Forall pool_call evs /\
    List.length evs <= 2 /\
    faults w' = skipn (List.length evs) (faults w) /\
    match r with
    | HealthCheck => evs = []
    | CreateWithoutBody => evs = []
    | Create _ => True
    | _ => List.length evs = 1
    end.
Proof.
  cbv zeta.
  assert (One : forall s (h : Result -> Eff Response) (k : Error -> Eff Response),
             (forall x v, exists a, h x v = (inr a, v)) ->
             (forall x v, snd (k x v) = v) ->
             let w' := snd (try_catch (bind (pool_execute s) h) k w) in
             process w' = process w /\ clock w' = clock w /\
             exists evs : list Event,
               journal w' = (journal w ++ evs)%list /\
               Forall pool_call evs /\ List.length evs <= 2 /\
               faults w' = skipn (List.length evs) (faults w) /\
               List.length evs = 1).
  { intros s h k Hh Hk. cbv zeta. unfold try_catch, bind.
    pose proof (pool_execute_footprint s w) as F. cbv zeta in F.
    destruct (pool_execute s w) as [[e | res] w1]; cbn [snd] in F;
      [ rewrite Hk | destruct (Hh res w1) as [a ->]; cbn [snd] ];
      destruct F as (F1 & F2 & F3 & F4);
      (split; [ exact F1 | split; [ exact F2 | ] ]);
      exists [Execute Pool s];
      (split; [ exact F3 | ]);
      (split; [ constructor; [ now exists s | constructor ] | ]);
      (split; [ simpl; lia | ]);
      (split; [ rewrite F4; now destruct (faults w) | reflexivity ]). }
  destruct r as [| b | | i | q |]; cbn [handle].
  - destruct (One (Select [] true)
                  (fun r => json (Records (result_rows r)))
                  (fun _ => status_json 500
                              (Failure "Failed to fetch attendance records")))
      as (P & C & evs & J & Fa & L & Fs & L1);
      [ intros x v; eexists; reflexivity | reflexivity | ].
    split; [ exact P | split; [ exact C | ] ]. exists evs. auto.
  - unfold post_attendance, create_attendance, try_catch, bind. cbv zeta.
    destruct (negb (Js.truthy (body_employeeName b))
              || negb (Js.truthy (body_employeeID b))
              || negb (Js.truthy (body_date b))
              || negb (Js.truthy (body_status b))).
    { cbn. repeat split. exists []. rewrite app_nil_r.
      repeat split; auto. }
    destruct (negb (Js.includes [Js.Str "Present"; Js.Str "Absent"]
                                (body_status b))).
    { cbn. repeat split. exists []. rewrite app_nil_r.
      repeat split; auto. }
    pose proof (pool_execute_footprint
                  (Select [EmployeeIdEq (body_employeeID b);
                           DateEq (body_date b)] false) w) as F.
    cbv zeta in F.
    destruct (pool_execute _ w) as [[e1 | res1] w1]; cbn [snd] in F;
      destruct F as (F1 & F2 & F3 & F4).
    { cbn. split; [ exact F1 | split; [ exact F2 | ] ].
      eexists. split; [ exact F3 | ].
      split; [ constructor; [ eexists; reflexivity | constructor ] | ].
      split; [ simpl; lia | ].
      split; [ | exact I ]. rewrite F4. now destruct (faults w). }
    destruct (0 <? List.length (result_rows res1))%nat.
    { cbn. split; [ exact F1 | split; [ exact F2 | ] ].
      eexists. split; [ exact F3 | ].
      split; [ constructor; [ eexists; reflexivity | constructor ] | ].
      split; [ simpl; lia | ].
      split; [ | exact I ]. rewrite F4. now destruct (faults w). }
    pose proof (pool_execute_footprint
                  (Insert (body_employeeName b) (body_employeeID b)
                          (body_date b) (body_status b)) w1) as G.
    cbv zeta in G.
    destruct (pool_execute _ w1) as [[e2 | res2] w2]; cbn [snd] in G;
      destruct G as (G1 & G2 & G3 & G4);
      cbn; (split; [ congruence | split; [ congruence | ] ]);
      eexists; (split; [ rewrite G3, F3, <- app_assoc; reflexivity | ]);
      (split; [ repeat (constructor; [ eexists; reflexivity | ]); constructor | ]);
      (split; [ simpl; lia | ]);
      (split; [ | exact I ]);
      rewrite G4, F4; now destruct (faults w) as [| ? [| ? ?]].
  - cbn. repeat split. exists []. rewrite app_nil_r.
    repeat split; auto.
  - destruct (One (Delete i)
                  (fun result =>
                     if (affectedRows result =? 0)%nat
                     then status_json 404 (Failure "Record not found")
                     else json (Message "Record deleted successfully"))
                  (fun _ => status_json 500 (Failure "Failed to delete record")))
      as (P & C & evs & J & Fa & L & Fs & L1);
      [ intros x v; destruct (affectedRows x =? 0)%nat; eexists; reflexivity
      | reflexivity | ].
    split; [ exact P | split; [ exact C | ] ]. exists evs. auto.
  - destruct (One (Select (filter_conds q) true)
                  (fun r => json (Records (result_rows r)))
                  (fun _ => status_json 500
                              (Failure "Failed to filter attendance records")))
      as (P & C & evs & J & Fa & L & Fs & L1);
      [ intros x v; eexists; reflexivity | reflexivity | ].
    split; [ exact P | split; [ exact C | ] ]. exists evs. auto.
  - cbn. repeat split. exists []. rewrite app_nil_r.
    repeat split; auto.
Qed.

Lemma handle_keeps_process (r : Request) (w : World) :
  process (snd (handle r w)) = process w.
Proof.
  destruct r as [| b | | i | q |]; cbn [handle].
  - unfold get_attendance, try_catch, bind.
    pose proof (pool_execute_footprint (Select [] true) w) as F.
    destruct (pool_execute _ w) as [[e | res] w1]; apply F.
  - unfold post_attendance, create_attendance, try_catch, bind. cbv zeta.
    repeat match goal with
           | |- context [if ?c then _ else _] => destruct c; try reflexivity
           end.
    pose proof (pool_execute_footprint
                  (Select [EmployeeIdEq (body_employeeID b);
                           DateEq (body_date b)] false) w) as F.
    destruct (pool_execute _ w) as [[e1 | res1] w1]; [ apply F | ].
    destruct (0 <? List.length (result_rows res1))%nat; [ apply F | ].
    pose proof (pool_execute_footprint
                  (Insert (body_employeeName b) (body_employeeID b)
                          (body_date b) (body_status b)) w1) as G.
    destruct F as (F & _). cbn [snd] in F.
    destruct (pool_execute _ w1) as [[e2 | res2] w2];
      destruct G as (G & _); cbn in *; congruence.
  - reflexivity.
  - unfold delete_attendance, try_catch, bind.
    pose proof (pool_execute_footprint (Delete i) w) as F.
    destruct (pool_execute _ w) as [[e | res] w1]; [ apply F | ].
    destruct (affectedRows res =? 0)%nat; apply F.
  - unfold filter_attendance, try_catch, bind.
    pose proof (pool_execute_footprint (Select (filter_conds q) true) w) as F.
    destruct (pool_execute _ w) as [[e | res] w1]; apply F.
  - reflexivity.
Qed.

Lemma serve_all_keeps_listening (rs : list (Z * Request)) (w : World) :
  process w = Listening -> process (serve_all rs w) = Listening.
Proof.
  revert w. induction rs as [| [now r] rs IH]; intros w L; simpl.
  - exact L.
  - apply IH. unfold serve. cbn [at_time process]. rewrite L.
    pose proof (handle_keeps_process r (at_time now w)) as K.
    destruct (handle r (at_time now w)) as [[e | a] w']; cbn in *; congruence.
Qed.

(** X6. A server that listens stays up: after any sequence of requests,
    with or without a body, whatever becomes of the driver calls and
    whatever the storage holds, the process is still listening, and the next
    request gets a response. *)
Theorem listening_server_keeps_answering
    (w : World) (rs : list (Z * Request)) (r : Request) (t : Z) :
  process w = Listening ->
  let w' := serve_all rs w in
  process w' = Listening /\
  exists resp : Response, fst (serve r (at_time t w')) = Some resp.
Proof.
  intros L0. cbv zeta.
  assert (L : process (serve_all rs w) = Listening)
    by now apply serve_all_keeps_listening.
  split; [ exact L | ].
  unfold serve. cbn [at_time process]. rewrite L.
  destruct (handle_responds r (at_time t (serve_all rs w))) as [resp E].
  unfold at_time in E.
  destruct (handle r _) as [[e | a] w']; cbn in E; [ discriminate | ].
  now exists a.
Qed.

(** ** Start-up and the storage *)

(** Start-up on a fresh server leaves no table or an empty one. *)
Lemma startServer_fresh (s : Storage) (now : Z) (fs : list Fate) :
  s = NoDatabase \/ s = NoTable ->
  let s' := storage (snd (startServer (boot s now fs))) in
  s' = NoDatabase \/ s' = NoTable \/ s' = HasTable empty_table.
Proof.
  intros [-> | ->]; cbv zeta;
    destruct fs as [| [| |] [| [| |] [| [| |] [| [| |] fs]]]]; cbn; auto.
Qed.

(** Start-up leaves a table that is already there as it is. *)
Lemma startServer_keeps_table (t : Table) (now : Z) (fs : list Fate) :
  storage (snd (startServer (boot (HasTable t) now fs))) = HasTable t.
Proof.
  destruct fs as [| [| |] [| [| |] [| [| |] [| [| |] fs]]]]; reflexivity.
Qed.

(** ** Invariants of the table *)

Section TableInvariant.

Variable P : Table -> Prop.

Hypothesis P_empty : P empty_table.

Hypothesis P_delete :
  forall (t : Table) (i : Z),
    P t ->
    P (mkTable (filter (fun r => negb (Zpos (id r) =? i)%Z) (rows t))
               (auto_increment t)).

Hypothesis P_insert :
  forall (t : Table) (n e : string) (d : Date) (st : Status) (now : Z),
    P t -> n <> "" -> e <> "" ->
    String.length n <= 255 -> String.length e <= 100 ->
    P (mkTable (rows t ++ [mkRow (auto_increment t) n e d st now])
               (Pos.succ (auto_increment t))).

Lemma invariant_handle (r : Request) (w : World) :
  holds_in P w -> holds_in P (snd (handle r w)).
Proof.
  unfold holds_in. intros OK.
  destruct r as [| b | | i | q |]; cbn [handle].
  - now rewrite get_attendance_storage.
  - destruct (post_attendance_effect b w)
      as [E | (t & n & e & ds & d & d' & tm & st & n' & e' & St & _ & Nn & Ne
               & Fn & Fe & _ & _ & _ & E)];
      rewrite E; [ exact OK | ].
    rewrite St in OK.
    destruct (fit_stored 255 n n' ltac:(lia) Nn Fn).
    destruct (fit_stored 100 e e' ltac:(lia) Ne Fe).
    now apply P_insert.
  - exact OK.
  - destruct (delete_attendance_storage i w) as [E | [t [St E]]];
      rewrite E; [ exact OK | ].
    rewrite St in OK. now apply P_delete.
  - now rewrite filter_attendance_storage.
  - exact OK.
Qed.

Lemma invariant_serve_all (rs : list (Z * Request)) (w : World) :
  holds_in P w -> holds_in P (serve_all rs w).
Proof.
  revert w. induction rs as [| [now r] rs IH]; intros w OK; simpl.
  - exact OK.
  - apply IH. unfold serve.
    destruct (process (at_time now w)); try exact OK.
    pose proof (invariant_handle r (at_time now w) OK) as H.
    now destruct (handle r (at_time now w)) as [[e | a] w'].
Qed.

Lemma invariant_startServer (s : Storage) (now : Z) (fs : list Fate) :
  holds_in P (boot s now fs) -> holds_in P (snd (startServer (boot s now fs))).
Proof.
  unfold holds_in at 1. cbn [boot storage]. intros OK. unfold holds_in.
  destruct s as [| | t].
  - destruct (startServer_fresh NoDatabase now fs (or_introl eq_refl))
      as [E | [E | E]]; rewrite E; auto.
  - destruct (startServer_fresh NoTable now fs (or_intror eq_refl))
      as [E | [E | E]]; rewrite E; auto.
  - now rewrite startServer_keeps_table.
Qed.

Lemma invariant_run (s : Storage) (now : Z) (fs : list Fate)
    (rs : list (Z * Request)) :
  holds_in P (boot s now fs) ->
  holds_in P (serve_all rs (snd (startServer (boot s now fs)))).
Proof.
  intros OK. apply invariant_serve_all. now apply invariant_startServer.
Qed.

End TableInvariant.

Lemma row_ok_delete (t : Table) (i : Z) :
  Forall row_ok (rows t) ->
  Forall row_ok
    (rows (mkTable (filter (fun r => negb (Zpos (id r) =? i)%Z) (rows t))
                   (auto_increment t))).
Proof.
  cbn [rows]. rewrite !Forall_forall. intros H r I.
  apply filter_In in I as [I _]. now apply H.
Qed.

Lemma row_ok_insert (t : Table) (n e : string) (d : Date) (st : Status)
    (now : Z) :
  Forall row_ok (rows t) -> n <> "" -> e <> "" ->
  String.length n <= 255 -> String.length e <= 100 ->
  Forall row_ok
    (rows (mkTable (rows t ++ [mkRow (auto_increment t) n e d st now])
                   (Pos.succ (auto_increment t)))).
Proof.
  cbn [rows]. intros H Nn Ne Ln Le. apply Forall_app. split; [ exact H | ].
  constructor; [ | constructor ]. unfold row_ok. cbn. auto.
Qed.

(** X7. Every stored record has a non-empty employeeName of at most 255
    characters and a non-empty employeeID of at most 100: no handler, in no
    state of the world, breaks this, so it holds after every sequence of
    requests on a server started on a table that had it, or on no table. *)
Theorem stored_rows_respect_columns :
  (forall (r : Request) (w : World),
      rows_ok w -> rows_ok (snd (handle r w))) /\
  (forall (s : Storage) (now : Z) (fs : list Fate) (rs : list (Z * Request)),
      rows_ok (boot s now fs) ->
      rows_ok (serve_all rs (snd (startServer (boot s now fs))))).
Proof.
  split.
  - intros r w.
    apply (invariant_handle (fun t => Forall row_ok (rows t))
             row_ok_delete row_ok_insert).
  - intros s now fs rs.
    apply (invariant_run (fun t => Forall row_ok (rows t))
             (Forall_nil _) row_ok_delete row_ok_insert).
Qed.

Lemma nodup_map_filter {A B : Type} (g : A -> B) (p : A -> bool)
    (l : list A) :
  NoDup (map g l) -> NoDup (map g (filter p l)).
Proof.
  induction l as [| a l IH]; cbn [map filter]; intros N; [ constructor | ].
  apply NoDup_cons_iff in N as [Nin N].
  destruct (p a); cbn [map]; [ | now apply IH ].
  constructor; [ | now apply IH ].
  intros I. apply Nin. apply in_map_iff in I as (x & E & Hx).
  apply filter_In in Hx as [Hx _]. apply in_map_iff. now exists x.
Qed.

Lemma ids_ok_delete (t : Table) (i : Z) :
  ids_ok t ->
  ids_ok (mkTable (filter (fun r => negb (Zpos (id r) =? i)%Z) (rows t))
                  (auto_increment t)).
Proof.
  unfold ids_ok. cbn [rows auto_increment]. intros [N F]. split.
  - now apply nodup_map_filter.
  - rewrite Forall_forall in *. intros r I.
    apply filter_In in I as [I _]. now apply F.
Qed.

Lemma ids_ok_insert (t : Table) (n e : string) (d : Date) (st : Status)
    (now : Z) :
  ids_ok t -> n <> "" -> e <> "" ->
  String.length n <= 255 -> String.length e <= 100 ->
  ids_ok (mkTable (rows t ++ [mkRow (auto_increment t) n e d st now])
                  (Pos.succ (auto_increment t))).
Proof.
  unfold ids_ok. cbn [rows auto_increment]. intros [N F] _ _ _ _. split.
  - rewrite map_app. cbn [map id].
    eapply Permutation_NoDup; [ apply Permutation_cons_append | ].
    constructor; [ | exact N ].
    intros I. apply in_map_iff in I as (x & E & Hx).
    rewrite Forall_forall in F. specialize (F x Hx). lia.
  - apply Forall_app. split.
    + eapply Forall_impl; [ | exact F ]. cbn. intros r L. lia.
    + constructor; [ cbn; lia | constructor ].
Qed.

(** A 201 of Create comes with the counter's value and the appended row. *)
Lemma post_attendance_created (b : CreateBody) (w w' : World)
    (resp : Response) (msg : string) (i : Z) :
  post_attendance b w = (inr resp, w') -> body resp = Created msg i ->
  exists (t : Table) (n e : string) (d : Date) (st : Status),
    storage w = HasTable t /\ i = Zpos (auto_increment t) /\
    code resp = 201 /\
    storage w' =
    HasTable (mkTable (rows t ++ [mkRow (auto_increment t) n e d st (clock w)])
                      (Pos.succ (auto_increment t))).
Proof.
  unfold post_attendance, create_attendance, try_catch, bind. cbv zeta.
  repeat match goal with
         | |- context [if ?c then _ else _] =>
             destruct c; try (intros H B; inversion H; subst; discriminate)
         end.
  destruct (pool_execute _ w) as [[e1 | res1] w1] eqn:P1;
    try (intros H B; inversion H; subst; discriminate).
  destruct (0 <? List.length (result_rows res1))%nat;
    try (intros H B; inversion H; subst; discriminate).
  destruct (pool_execute _ w1) as [[e2 | res2] w2] eqn:P2;
    try (intros H B; inversion H; subst; discriminate).
  intros H B. inversion H; subst. cbn in B. inversion B; subst.
  apply pool_select in P1 as (S1 & C1 & _).
  apply pool_insert in P2
    as [(_ & N)
       | (t & n & e & ds & d & st & n' & e' & St & _ & _ & _ & _ & _ & _ & _
          & _ & R & S2)]; [ now destruct (N res2) | ].
  exists t, n', e', d, st. rewrite (R _ eq_refl). cbn.
  repeat split; congruence.
Qed.

(** X8. The ids are a primary key handed out by a counter that only grows:
    no handler, in no state of the world, makes two records share an id or
    leaves a record with an id the counter has not passed.  So the id that a
    Create answers with is the id of no record stored before, and it is the
    id of the record just stored. *)
Theorem ids_stay_a_primary_key :
  (forall (r : Request) (w : World),
      keys_ok w -> keys_ok (snd (handle r w))) /\
  (forall (s : Storage) (now : Z) (fs : list Fate) (rs : list (Z * Request)),
      keys_ok (boot s now fs) ->
      keys_ok (serve_all rs (snd (startServer (boot s now fs))))) /\
  (forall (b : CreateBody) (w w' : World) (t : Table) (resp : Response)
          (msg : string) (i : Z),
      storage w = HasTable t -> ids_ok t ->
      post_attendance b w = (inr resp, w') -> body resp = Created msg i ->
      (forall r, In r (rows t) -> Zpos (id r) <> i) /\
      exists (t' : Table) (r' : Row),
        storage w' = HasTable t' /\ In r' (rows t') /\ Zpos (id r') = i).
Proof.
  split; [ | split ].
  - intros r w.
    apply (invariant_handle ids_ok ids_ok_delete ids_ok_insert).
  - intros s now fs rs.
    apply (invariant_run ids_ok); auto using ids_ok_delete, ids_ok_insert.
    split; constructor.
  - intros b w w' t resp msg i St [N F] H B.
    destruct (post_attendance_created _ _ _ _ _ _ H B)
      as (t0 & n & e & d & st & St0 & -> & _ & S').
    assert (t0 = t) by congruence. subst t0. split.
    + intros r I E. rewrite Forall_forall in F. specialize (F r I).
      inversion E. lia.
    + eexists. eexists. split; [ exact S' | ]. cbn [rows]. split.
      * apply in_or_app. right. left. reflexivity.
      * reflexivity.
Qed.

(** ** The invariant of the data model *)

Lemma keys_filter (f : Row -> bool) (l : list Row) :
  NoDup (map key l) -> NoDup (map key (filter f l)).
Proof. apply nodup_map_filter. Qed.

Lemma keys_append (l : list Row) (r : Row) :
  NoDup (map key l) -> (forall x, In x l -> key x <> key r) ->
  NoDup (map key (l ++ [r])).
Proof.
  intros N F. rewrite map_app. simpl.
  eapply Permutation_NoDup; [ apply Permutation_cons_append | ].
  constructor; [ | exact N ].
  intros I. apply in_map_iff in I as [x [E Hx]]. now apply (F x).
Qed.

Lemma plain_create_keeps_invariant (r : Request) (w : World) :
  plain_create r -> world_ok w -> world_ok (snd (handle r w)).
Proof.
  unfold world_ok. intros Pl OK.
  destruct r as [| b | | i | q |]; cbn [handle].
  - now rewrite get_attendance_storage.
  - destruct (post_attendance_effect b w)
      as [E | (t & n & e & ds & d & d' & tm & st & n' & e' & St & -> & Nn & Ne
               & Fn & Fe & Dd & Dt & Fresh & E)];
      rewrite E; [ exact OK | ].
    rewrite St in OK. unfold one_per_day in *. cbn [rows].
    destruct (Pl e ds d eq_refl eq_refl Dd) as (Le & Dt').
    rewrite Dt' in Dt. inversion Dt; subst d' tm.
    rewrite (fit_short _ _ Le) in Fe. inversion Fe; subst e'.
    apply keys_append; [ exact OK | ].
    intros x Hx K. unfold key in K. cbn in K. inversion K as [[Ke Kd]].
    specialize (Fresh x Hx).
    assert (T : same_key e d 0 x = true).
    { apply same_key_spec. rewrite Ke. now rewrite equates_refl. }
    congruence.
  - exact OK.
  - destruct (delete_attendance_storage i w) as [E | [t [St E]]];
      rewrite E; [ exact OK | ].
    rewrite St in OK. unfold one_per_day in *. cbn [rows].
    now apply keys_filter.
  - now rewrite filter_attendance_storage.
  - exact OK.
Qed.

Lemma plain_creates_serve_all (rs : list (Z * Request)) (w : World) :
  Forall (fun x => plain_create (snd x)) rs ->
  world_ok w -> world_ok (serve_all rs w).
Proof.
  revert w. induction rs as [| [now r] rs IH]; intros w F OK; simpl.
  - exact OK.
  - apply Forall_cons_iff in F as [Pr F]. apply IH; [ exact F | ].
    unfold serve.
    destruct (process (at_time now w)); try exact OK.
    pose proof (plain_create_keeps_invariant r (at_time now w) Pr OK) as H.
    now destruct (handle r (at_time now w)) as [[e | a] w'].
Qed.

(** X21. At most one record per (employeeID, date), as far as the existence
    check of Create goes: the invariant is preserved, in every state of the
    world and whatever becomes of the driver calls, by every request other
    than a Create, and by every Create whose employeeID is no longer than
    its column and whose date is not read with a time of day (as no date in
    canonical spelling is); so it holds after every sequence of such
    requests, served one after the other by a server started on a table
    that had it, or on no table. *)
Theorem plain_creates_keep_one_per_day :
  (forall (r : Request) (w : World),
      plain_create r -> world_ok w -> world_ok (snd (handle r w))) /\
  (forall (s : Storage) (now : Z) (fs : list Fate) (rs : list (Z * Request)),
      Forall (fun x => plain_create (snd x)) rs ->
      world_ok (boot s now fs) ->
      world_ok (serve_all rs (snd (startServer (boot s now fs))))).
Proof.
  split; [ exact plain_create_keeps_invariant | ].
  intros s now fs rs F OK. apply plain_creates_serve_all; [ exact F | ].
  revert OK. unfold world_ok at 1. cbn [boot storage]. intros OK.
  unfold world_ok. destruct s as [| | t].
  - destruct (startServer_fresh NoDatabase now fs (or_introl eq_refl))
      as [E | [E | E]]; rewrite E; try exact I.
    unfold one_per_day. simpl. constructor.
  - destruct (startServer_fresh NoTable now fs (or_intror eq_refl))
      as [E | [E | E]]; rewrite E; try exact I.
    unfold one_per_day. simpl. constructor.
  - now rewrite startServer_keeps_table.
Qed.

(** X22. The existence check of Create compares the date as the server
    reads it, time of day included, and the DATE column stores the day
    alone.  So a Create whose date is read with a time of day other than
    midnight is never refused as a duplicate: on a storage layer that
    answers it is answered 201 and its record is stored under the day,
    whatever the table holds, a record of that employee and that day
    included, and as often as it is sent. *)
Theorem timed_date_is_never_a_duplicate
    (t : Table) (now : Z) (n e ds : string) (d d' : Date) (tm : nat)
    (st : Status) :
  n <> "" -> e <> "" -> ds <> "" ->
  String.length n <= 255 -> String.length e <= 100 ->
  read_date ds = Some d -> read_temporal ds = Some (d', tm) -> tm <> 0 ->
  (auto_increment t <= int_max)%positive ->
  exists w' : World,
    post_attendance (text_body n e ds st) (serving t now) =
    (inr (mkResponse 201
            (Created "Attendance recorded successfully"
                     (Zpos (auto_increment t)))), w') /\
    table_of w' =
    Some (mkTable (rows t ++ [mkRow (auto_increment t) n e d st now])
                  (Pos.succ (auto_increment t))).
Proof.
  intros Nn Ne Nd Ln Le Dd Dt Ntm B. unfold text_body, serving.
  rewrite (post_attendance_answers t now [] Listening n e ds d d' tm st n e
             Nn Ne Nd (fit_short _ _ Ln) (fit_short _ _ Le) Dd Dt).
  - eexists. split; reflexivity.
  - intros r _. destruct (same_key e d' tm r) eqn:K; [ | reflexivity ].
    apply same_key_spec in K as (_ & _ & Z0). contradiction.
  - exact B.
Qed.

(** ** Create and Delete, one after the other *)

Lemma filter_app_last (f : Row -> bool) (l : list Row) (r : Row) :
  f r = false -> (forall x, In x l -> f x = true) ->
  filter f (l ++ [r]) = l.
Proof.
  intros Fr Fl. rewrite filter_app. cbn [filter]. rewrite Fr, app_nil_r.
  now apply filter_keeps_all.
Qed.

Lemma newest_id_filter (t : Table) (r : Row) :
  Forall (fun x => (id x < auto_increment t)%positive) (rows t) ->
  id r = auto_increment t ->
  filter (fun x => negb (Zpos (id x) =? Zpos (auto_increment t))%Z)
         (rows t ++ [r]) = rows t.
Proof.
  intros F E. apply filter_app_last.
  - rewrite E. now rewrite Z.eqb_refl.
  - intros x Hx. rewrite Forall_forall in F. specialize (F x Hx).
    apply negb_true_iff, Z.eqb_neq. intros Q. inversion Q. lia.
Qed.

(** X9. Create, then Delete of the id that Create answered with, brings the
    records back to what they were, on a table whose ids the counter has
    passed; only the counter has moved, so the id is not handed out again.
    The Create is one that is accepted: its date is read by the server as a
    day and no record of that day has an employeeID that the collation
    equates with its own. *)
Theorem create_then_delete_restores_records
    (t : Table) (now after : Z) (n e ds : string) (d : Date) (st : Status) :
  n <> "" -> e <> "" -> ds <> "" ->
  String.length n <= 255 -> String.length e <= 100 ->
  reads_as ds d ->
  unrecorded e d t ->
  (auto_increment t <= int_max)%positive ->
  Forall (fun r => (id r < auto_increment t)%positive) (rows t) ->
  exists w1 w2 : World,
    post_attendance (text_body n e ds st) (serving t now) =
    (inr (mkResponse 201
            (Created "Attendance recorded successfully"
                     (Zpos (auto_increment t)))), w1) /\
    delete_attendance (Zpos (auto_increment t)) (at_time after w1) =
    (inr (mkResponse 200 (Message "Record deleted successfully")), w2) /\
    table_of w2 = Some (mkTable (rows t) (Pos.succ (auto_increment t))).
Proof.
  intros Nn Ne Nd Ln Le (Dd & tm & Dt) Fresh B F. unfold text_body, serving.
  rewrite (post_attendance_answers t now [] Listening n e ds d d tm st n e
             Nn Ne Nd (fit_short _ _ Ln) (fit_short _ _ Le) Dd Dt
             (unrecorded_check _ _ _ _ Fresh) B).
  clear B. eexists. eexists. split; [ reflexivity | ].
  unfold at_time. cbn [storage faults journal process].
  rewrite delete_attendance_answers. cbn [rows auto_increment].
  rewrite (newest_id_filter t (mkRow (auto_increment t) n e d st now) F
             eq_refl).
  rewrite length_app. cbn [List.length].
  replace (List.length (rows t) + 1 - List.length (rows t)) with 1 by lia.
  split; reflexivity.
Qed.


(** ** Filter, as the handler builds it *)

Lemma like_percent_here (p s : string) :
  like p s = true -> like (String "%" p) s = true.
Proof. intros H. rewrite like_percent_step, H. reflexivity. Qed.

Lemma like_percents (k : nat) (s : string) :
  like ("%" ++ copies k "%" ++ "%") s = true.
Proof.
  change ("%" ++ copies k "%" ++ "%")%string
    with (String "%" (copies k "%" ++ "%")).
  apply like_percent_here.
  induction k as [| k IH]; [ apply like_any | ].
  change (copies (S k) "%" ++ "%")%string
    with (String "%" (copies k "%" ++ "%")).
  now apply like_percent_here.
Qed.

Lemma like_underscores_prefix (k : nat) (s : string) :
  like (copies k "_" ++ "%") s = (k <=? String.length s)%nat.
Proof.
  revert s. induction k as [| k IH]; intros s.
  - apply like_any.
  - change (copies (S k) "_" ++ "%")%string
      with (String "_" (copies k "_" ++ "%")).
    cbn [like]. change (Ascii.eqb "_" "%") with false.
    change (Ascii.eqb "_" "_") with true. cbn iota.
    destruct s as [| c s]; [ reflexivity | ]. now rewrite IH.
Qed.

Lemma like_underscores (k : nat) (s : string) :
  like ("%" ++ copies k "_" ++ "%") s = (k <=? String.length s)%nat.
Proof.
  change ("%" ++ copies k "_" ++ "%")%string
    with (String "%" (copies k "_" ++ "%")).
  apply eq_true_iff_eq. rewrite like_percent, Nat.leb_le. split.
  - intros (a & b & -> & H). rewrite like_underscores_prefix in H.
    apply Nat.leb_le in H. rewrite append_length. lia.
  - intros L. exists EmptyString, s. split; [ reflexivity | ].
    rewrite like_underscores_prefix. now apply Nat.leb_le.
Qed.

Lemma copies_nonempty (k : nat) (c : ascii) :
  0 < k -> String.eqb (copies k c) "" = false.
Proof. destruct k; [ lia | reflexivity ]. Qed.

(** X14. A value made of metacharacters is not searched for, it is
    interpreted: an employeeName parameter of one or more [%] returns every
    record, as list-all does, and an employeeID parameter of [k] underscores
    returns the records whose employeeID has at least [k] characters. *)
Theorem wildcard_parameters_are_interpreted (t : Table) (now : Z) (k : nat) :
  0 < k ->
  records (filter_attendance (mkQuery None (Some (copies k "%")) None)
                             (serving t now)) =
  records (get_attendance (serving t now)) /\
  records (filter_attendance (mkQuery None None (Some (copies k "_")))
                             (serving t now)) =
  filter (fun r => (k <=? String.length (employeeID r))%nat)
         (records (get_attendance (serving t now))).
Proof.
  intros K. unfold serving.
  rewrite !filter_attendance_answers by (intros s E; discriminate).
  rewrite get_attendance_serving. unfold records. cbn [fst body].
  split.
  - apply filter_keeps_all. intros r _.
    unfold sql_match, on_param.
    cbn [query_date query_employeeName query_employeeID].
    rewrite (copies_nonempty k "%" K), like_percents. reflexivity.
  - apply filter_ext. intros r.
    unfold sql_match, on_param.
    cbn [query_date query_employeeName query_employeeID].
    rewrite (copies_nonempty k "_" K), like_underscores. reflexivity.
Qed.

Lemma sql_match_split (q : Query) (r : Row) :
  sql_match q r =
  sql_match (only_date q) r && sql_match (only_name q) r
  && sql_match (only_id q) r.
Proof.
  unfold sql_match, only_date, only_name, only_id.
  cbn [query_date query_employeeName query_employeeID on_param].
  rewrite !andb_true_r. reflexivity.
Qed.

(** X15. The supplied conditions are combined with AND: for a query whose
    date, when supplied, is a text the server reads as a date, a record is
    returned by Filter exactly when it is returned by each of the three
    Filter requests that keep one of its parameters. *)
Theorem filter_is_the_conjunction
    (t : Table) (now : Z) (q : Query) (r : Row) :
  date_ok q ->
  In r (records (filter_attendance q (serving t now))) <->
  In r (records (filter_attendance (only_date q) (serving t now))) /\
  In r (records (filter_attendance (only_name q) (serving t now))) /\
  In r (records (filter_attendance (only_id q) (serving t now))).
Proof.
  intros Dq. unfold serving.
  rewrite !filter_attendance_answers
    by (exact Dq || (intros s E; discriminate)).
  unfold records. cbn [fst body].
  rewrite !filter_In, sql_match_split, !andb_true_iff. tauto.
Qed.

Lemma like_self (x p s : string) :
  no_backslash x = true -> like p s = true ->
  like (x ++ p) (x ++ s) = true.
Proof.
  intros B H. induction x as [| c x IH]; [ exact H | ].
  cbn [no_backslash] in B. apply andb_true_iff in B as [Bc Bx].
  apply negb_true_iff in Bc. specialize (IH Bx).
  change (String c x ++ p)%string with (String c (x ++ p)).
  change (String c x ++ s)%string with (String c (x ++ s)).
  destruct (Ascii.eqb c "%") eqn:E1.
  - apply Ascii.eqb_eq in E1. subst c.
    rewrite like_percent_step. apply orb_true_iff. right.
    now apply like_percent_here.
  - cbn [like]. rewrite E1.
    destruct (Ascii.eqb c "_") eqn:E2; [ exact IH | ].
    rewrite Bc, char_equates_refl. exact IH.
Qed.

Lemma like_own_text (x : string) :
  no_backslash x = true -> like ("%" ++ x ++ "%") x = true.
Proof.
  intros B.
  change ("%" ++ x ++ "%")%string with (String "%" (x ++ "%")).
  apply like_percent_here.
  rewrite <- (append_empty_r x) at 2.
  apply like_self; [ exact B | reflexivity ].
Qed.

(** X16. A record just created is found by Filter on its own date,
    employeeName and employeeID, all three supplied, provided the name and
    the ID hold no backslash (a backslash in the value escapes the
    character after it in the pattern, the closing [%] included).  The
    Create is one that is accepted: its date is in canonical spelling and no
    record of that day has an employeeID that the collation equates with
    its own. *)
Theorem created_record_is_found_by_filter
    (t : Table) (now after : Z) (n e ds : string) (d : Date) (st : Status) :
  n <> "" -> e <> "" ->
  String.length n <= 255 -> String.length e <= 100 ->
  to_date ds = Some d ->
  unrecorded e d t ->
  (auto_increment t <= int_max)%positive ->
  no_backslash n = true -> no_backslash e = true ->
  In (mkRow (auto_increment t) n e d st now)
     (records
        (filter_attendance (mkQuery (Some ds) (Some n) (Some e))
           (at_time after
              (snd (post_attendance (text_body n e ds st)
                                    (serving t now)))))).
Proof.
  intros Nn Ne Ln Le Dc Fresh B Bn Be. unfold text_body, serving.
  pose proof (to_date_nonempty _ _ Dc) as Nd.
  pose proof (read_temporal_canonical _ _ Dc) as Dt.
  rewrite (post_attendance_answers t now [] Listening n e ds d d 0 st n e
             Nn Ne Nd (fit_short _ _ Ln) (fit_short _ _ Le)
             (read_date_canonical _ _ Dc) Dt
             (unrecorded_check _ _ _ _ Fresh) B).
  unfold at_time. cbn [snd storage faults journal process].
  rewrite filter_attendance_answers.
  2:{ intros s E _. inversion E; subst. rewrite Dt. discriminate. }
  unfold records. cbn [fst body rows].
  apply filter_In. split.
  - eapply Permutation_in; [ symmetry; apply order_by_perm | ].
    apply in_or_app. right. now left.
  - unfold sql_match, on_param, dated.
    cbn [query_date query_employeeName query_employeeID
         employeeName employeeID date].
    rewrite Dt.
    replace (String.eqb ds "") with false
      by (symmetry; now apply String.eqb_neq).
    replace (String.eqb n "") with false
      by (symmetry; now apply String.eqb_neq).
    replace (String.eqb e "") with false
      by (symmetry; now apply String.eqb_neq).
    rewrite (like_own_text n Bn), (like_own_text e Be).
    now rewrite (proj2 (date_eqb_eq d d) eq_refl).
Qed.

(** ** Start-up, step by step *)

(** X17. A start-up that fails is not undone.  When the first driver call
    to fail is call number [k] (0 the connection, 1 CREATE DATABASE, 2 the
    end of the connection, 3 CREATE TABLE), exactly the calls up to that one
    have been made, then [process.exit(1)]; when CREATE DATABASE itself
    fails the connection is never ended.  Every statement that the server
    has run has had its effect, the one whose answer was lost included: the
    database is there when CREATE DATABASE was run, the table when CREATE
    TABLE was. *)
Theorem failed_start_is_not_undone
    (s : Storage) (now : Z) (fs : list Fate) (k : nat) :
  k < 4 -> fails_at k fs ->
  let w' := snd (startServer (boot s now fs)) in
  let f := nth k fs Answered in
  journal w' = (firstn (S k) bootstrap_calls ++ [Exit 1])%list /\
  storage w' =
  match s with
  | NoDatabase =>
      if has_run 3 k f then HasTable empty_table
      else if has_run 1 k f then NoTable else NoDatabase
  | NoTable => if has_run 3 k f then HasTable empty_table else NoTable
  | HasTable _ => s
  end /\
  (k = 1 -> ~ In End_ (journal w')).
Proof.
  intros Lt [Fk Fj]. cbv zeta.
  assert (F0 : 0 < k -> nth 0 fs Answered = Answered)
    by (intros; apply Fj; lia).
  assert (F1 : 1 < k -> nth 1 fs Answered = Answered)
    by (intros; apply Fj; lia).
  assert (F2 : 2 < k -> nth 2 fs Answered = Answered)
    by (intros; apply Fj; lia).
  destruct k as [| [| [| [| k]]]]; try lia;
    repeat match goal with
           | H : ?a < ?b -> _ |- _ =>
               first [ specialize (H ltac:(lia)) | clear H ]
           end;
    destruct s;
    destruct fs as [| [| |] [| [| |] [| [| |] [| [| |] fs]]]];
    cbn in *; try congruence;
    (repeat split; try reflexivity; try (intros; discriminate));
    intros _; cbn; intuition discriminate.
Qed.

(** X18. A restart loses nothing: on a storage that has the table,
    start-up leaves every record and the counter as they are, whether it
    succeeds or fails; and after a start-up that succeeded, on any storage,
    a second one changes nothing in the storage. *)
Theorem restart_keeps_the_table
    (s : Storage) (now now' : Z) (fs fs' : list Fate) :
  (forall t, s = HasTable t ->
             storage (snd (startServer (boot s now fs))) = HasTable t) /\
  (answers 4 fs ->
   let s1 := storage (snd (startServer (boot s now fs))) in
   (exists t, s1 = HasTable t) /\
   storage (snd (startServer (boot s1 now' fs'))) = s1).
Proof.
  split.
  - intros t ->. apply startServer_keeps_table.
  - intros A. cbv zeta.
    assert (T : exists t,
               storage (snd (startServer (boot s now fs))) = HasTable t).
    { each_fault A.
      destruct s;
        destruct fs as [| [| |] [| [| |] [| [| |] [| [| |] fs]]]];
        cbn in *; try discriminate; eexists; reflexivity. }
    split; [ exact T | ].
    destruct T as [t ->]. apply startServer_keeps_table.
Qed.

(** ** Records are corrected by Delete and Create *)

(** X19. There is no update: a record is corrected by deleting it and
    creating it again.  When a record is the only one of its day with an
    employeeID that the collation equates with its own, a Create for its
    employeeID and its date, in canonical spelling, is refused as long as
    the record is there and accepted, with a new id, once it is deleted. *)
Theorem delete_frees_the_day
    (t : Table) (now after : Z) (r0 : Row) (n ds : string) (st : Status) :
  In r0 (rows t) -> row_ok r0 ->
  (forall r, In r (rows t) ->
             equates (employeeID r) (employeeID r0) = true ->
             date r = date r0 -> id r = id r0) ->
  n <> "" -> String.length n <= 255 ->
  to_date ds = Some (date r0) ->
  (auto_increment t <= int_max)%positive ->
  exists w0 w1 w2 : World,
    post_attendance (text_body n (employeeID r0) ds st) (serving t now) =
    (inr (mkResponse 400
            (Failure "Attendance already recorded for this employee on the selected date")),
     w0) /\
    delete_attendance (Zpos (id r0)) (serving t now) =
    (inr (mkResponse 200 (Message "Record deleted successfully")), w1) /\
    post_attendance (text_body n (employeeID r0) ds st) (at_time after w1) =
    (inr (mkResponse 201
            (Created "Attendance recorded successfully"
                     (Zpos (auto_increment t)))), w2).
Proof.
  intros I0 (_ & Ne & _ & Le) U Nn Ln Dc B. unfold text_body, serving.
  pose proof (to_date_nonempty _ _ Dc) as Nd.
  pose proof (read_temporal_canonical _ _ Dc) as Dt.
  eexists. eexists. eexists. split; [ | split ].
  - rewrite post_attendance_validated by assumption.
    unfold try_catch, bind.
    rewrite pool_execute_answers, (duplicate_check_run _ _ _ _ _ _ Dt).
    cbn [fst snd result_rows].
    rewrite (filter_some _ _ r0 I0)
      by (apply same_key_spec; now rewrite equates_refl).
    reflexivity.
  - clear B. rewrite delete_attendance_answers.
    assert (L : List.length
                  (filter (fun r => negb (Zpos (id r) =? Zpos (id r0))%Z)
                          (rows t)) < List.length (rows t)).
    { apply (filter_drops _ _ r0 I0). now rewrite Z.eqb_refl. }
    destruct (Nat.eqb_spec
                (List.length (rows t)
                 - List.length
                     (filter (fun r => negb (Zpos (id r) =? Zpos (id r0))%Z)
                             (rows t))) 0) as [Z0 | _]; [ lia | ].
    reflexivity.
  - unfold at_time. cbn [storage faults journal process].
    rewrite (post_attendance_answers _ after _ Listening n (employeeID r0) ds
               (date r0) (date r0) 0 st n (employeeID r0)
               Nn Ne Nd (fit_short _ _ Ln) (fit_short _ _ Le)
               (read_date_canonical _ _ Dc) Dt).
    + reflexivity.
    + cbn [rows]. intros x Hx. apply filter_In in Hx as [Hx Q].
      destruct (same_key (employeeID r0) (date r0) 0 x) eqn:K;
        [ | reflexivity ].
      apply same_key_spec in K as (Ke & Kd & _).
      rewrite (U x Hx Ke Kd), Z.eqb_refl in Q. discriminate.
    + exact B.
Qed.

(** X20. No handler modifies a stored record or moves the counter back:
    in every world, each record of the table a handler leaves was in the
    table before, unchanged, or is the one record a Create has appended,
    with the counter's value as id and the server's time as createdAt. *)
Theorem records_are_never_modified
    (r : Request) (w : World) (t t' : Table) :
  storage w = HasTable t ->
  storage (snd (handle r w)) = HasTable t' ->
  (auto_increment t <= auto_increment t')%positive /\
  forall x, In x (rows t') ->
    In x (rows t) \/
    (id x = auto_increment t /\ createdAt x = clock w /\
     exists b, r = Create b).
Proof.
  intros St St'.
  assert (Same : storage (snd (handle r w)) = storage w ->
                 (auto_increment t <= auto_increment t')%positive /\
                 forall x, In x (rows t') ->
                   In x (rows t) \/
                   (id x = auto_increment t /\ createdAt x = clock w /\
                    exists b, r = Create b)).
  { intros E. assert (t' = t) by congruence. subst t'.
    split; [ lia | auto ]. }
  destruct r as [| b | | i | q |]; cbn [handle] in *.
  - apply Same, get_attendance_storage.
  - destruct (post_attendance_effect b w)
      as [E | (t0 & n & e & ds & d & d' & tm & st & n' & e' & St0 & _ & _ & _
               & _ & _ & _ & _ & _ & E)]; [ now apply Same | ].
    assert (t0 = t) by congruence. subst t0.
    rewrite E in St'. inversion St'; subst t'. cbn [rows auto_increment].
    split; [ lia | ].
    intros x Hx. apply in_app_or in Hx as [Hx | [<- | []]]; [ now left | ].
    right. cbn. repeat split. now exists b.
  - now apply Same.
  - destruct (delete_attendance_storage i w) as [E | (t0 & St0 & E)];
      [ now apply Same | ].
    assert (t0 = t) by congruence. subst t0.
    rewrite E in St'. inversion St'; subst t'. cbn [rows auto_increment].
    split; [ lia | ].
    intros x Hx. apply filter_In in Hx as [Hx _]. now left.
  - apply Same, filter_attendance_storage.
  - now apply Same.
Qed.

End Further.

(* ===================================================================== *)
(** * The theorems at the examples of the specification *)
(* ===================================================================== *)

(** The examples run on [Sql.default_server]. *)

#[local] Existing Instance default_server.

(** A body that passes both validations, with the status Present. *)
Ltac accepted_body := repeat (split; [ reflexivity | ]); left; reflexivity.

(** An answer and the table it leaves, by evaluation. *)
Ltac evaluated := eexists; split; vm_compute; reflexivity.

(** ** Create *)

(** POST Jane Doe, E100, 2024-01-05, Present on an empty table: 201, id 1. *)
Lemma create_valid_record_is_inserted_witness :
  ("Jane Doe" <> "" /\ "E100" <> "" /\ "2024-01-05" <> "" /\
   String.length "Jane Doe" <= 255 /\ String.length "E100" <= 100 /\
   reads_as "2024-01-05" (mkDate 2024 1 5) /\
   unrecorded "E100" (mkDate 2024 1 5) empty_table /\
   (auto_increment empty_table <= int_max)%positive) /\
  exists w' : World,
    post_attendance
      (mkCreateBody (Js.Str "Jane Doe") (Js.Str "E100") (Js.Str "2024-01-05")
                    (Js.Str "Present"))
      (serving empty_table 1000) =
    (inr (mkResponse 201 (Created "Attendance recorded successfully" 1)), w') /\
    table_of w' =
    Some (mkTable
            [mkRow 1 "Jane Doe" "E100" (mkDate 2024 1 5) Present 1000] 2).
Proof.
  assert (H1 : "Jane Doe" <> "") by discriminate.
  assert (H2 : "E100" <> "") by discriminate.
  assert (H3 : "2024-01-05" <> "") by discriminate.
  assert (H4 : String.length "Jane Doe" <= 255) by (simpl; lia).
  assert (H5 : String.length "E100" <= 100) by (simpl; lia).
  assert (H6 : reads_as "2024-01-05" (mkDate 2024 1 5))
    by (split; [ reflexivity | exists 0; reflexivity ]).
  assert (H7 : unrecorded "E100" (mkDate 2024 1 5) empty_table)
    by (intros r []).
  assert (H8 : (auto_increment empty_table <= int_max)%positive)
    by (vm_compute; discriminate).
  split;
    [ exact (conj H1 (conj H2 (conj H3 (conj H4 (conj H5
               (conj H6 (conj H7 H8))))))) | ].
  destruct (create_valid_record_is_inserted empty_table 1000
              "Jane Doe" "E100" "2024-01-05" (mkDate 2024 1 5) Present
              H1 H2 H3 H4 H5 H6 H7 H8)
    as (w' & E & _ & T & _).
  exists w'. split; [ exact E | exact T ].
Defined.

(** C1, as stated, fails.  A body whose four fields are present and
    non-empty, with an allowed status and on a table without a record of the
    same employeeID and date, is answered 500, and nothing is inserted, when
    its date is not a date, when its employeeID is longer (101 characters)
    than the column, when its employeeName is (256 characters), and when the
    id counter has passed the largest INT; and it is answered 400, as a
    duplicate, when the table holds a record of that day whose employeeID
    differs from its own by the case of a letter. *)
Lemma create_nonempty_fields_counterexample :
  let valid (b : CreateBody) :=
    Js.truthy (body_employeeName b) = true /\
    Js.truthy (body_employeeID b) = true /\
    Js.truthy (body_date b) = true /\
    Js.truthy (body_status b) = true /\
    status_allowed (body_status b) in
  let failed (b : CreateBody) (t : Table) :=
    exists w' : World,
      post_attendance b (serving t 2000) =
      (inr (mkResponse 500 (Failure "Failed to record attendance")), w') /\
      table_of w' = Some t in
  let jane := mkCreateBody (Js.Str "Jane Doe") (Js.Str "E100")
                           (Js.Str "2024-01-05") (Js.Str "Present") in
  let b1 := mkCreateBody (Js.Str "Jane Doe") (Js.Str "E100")
                         (Js.Str "someday") (Js.Str "Present") in
  let b2 := mkCreateBody (Js.Str "Jane Doe") (Js.Str (copies 101 "E"))
                         (Js.Str "2024-01-05") (Js.Str "Present") in
  let b3 := mkCreateBody (Js.Str (copies 256 "J")) (Js.Str "E100")
                         (Js.Str "2024-01-05") (Js.Str "Present") in
  let b4 := mkCreateBody (Js.Str "Jane Doe") (Js.Str "e100")
                         (Js.Str "2024-01-05") (Js.Str "Present") in
  let t4 := mkTable [mkRow 1 "Jane Doe" "E100" (mkDate 2024 1 5) Present 1000]
                    2 in
  (valid b1 /\ failed b1 empty_table) /\
  (valid b2 /\ failed b2 empty_table) /\
  (valid b3 /\ failed b3 empty_table) /\
  (valid jane /\ failed jane (mkTable [] 2147483648)) /\
  (valid b4 /\
   (forall r, In r (rows t4) -> key r <> ("e100", mkDate 2024 1 5)) /\
   exists w' : World,
     post_attendance b4 (serving t4 2000) =
     (inr (mkResponse 400
             (Failure "Attendance already recorded for this employee on the selected date")),
      w') /\
     table_of w' = Some t4).
Proof.
  cbv zeta. unfold status_allowed.
  split; [ split; [ accepted_body | evaluated ] | ].
  split; [ split; [ accepted_body | evaluated ] | ].
  split; [ split; [ accepted_body | evaluated ] | ].
  split; [ split; [ accepted_body | evaluated ] | ].
  split; [ accepted_body | ].
  split; [ intros r [<- | []]; discriminate | evaluated ].
Qed.




(** C2.  The existence check of Create does not keep the invariant.  From an
    empty server, the same Create sent twice, its date written with a time
    of day, is answered 201 both times, and the table ends with two records
    of the same employeeID and date.  So it is with a date in canonical
    spelling and an employeeID of 100 characters followed by a space: the
    column keeps the 100 characters, which the check does not equate with
    the 101 it is given. *)
Theorem same_day_recorded_twice :
  let w0 := snd (startServer (boot NoDatabase 1000 [])) in
  let first (b : CreateBody) := serve (Create b) (at_time 1001 w0) in
  let second (b : CreateBody) :=
    serve (Create b) (at_time 1002 (snd (first b))) in
  let jane := mkCreateBody (Js.Str "Jane Doe") (Js.Str "E100")
                           (Js.Str "2024-01-05 10:00:00") (Js.Str "Present") in
  let john := mkCreateBody (Js.Str "John Roe") (Js.Str (copies 100 "E" ++ " "))
                           (Js.Str "2024-01-05") (Js.Str "Present") in
  world_ok w0 /\
  (fst (first jane) =
   Some (mkResponse 201 (Created "Attendance recorded successfully" 1)) /\
   fst (second jane) =
   Some (mkResponse 201 (Created "Attendance recorded successfully" 2)) /\
   table_of (snd (second jane)) =
   Some (mkTable [mkRow 1 "Jane Doe" "E100" (mkDate 2024 1 5) Present 1001;
                  mkRow 2 "Jane Doe" "E100" (mkDate 2024 1 5) Present 1002] 3) /\
   ~ world_ok (snd (second jane))) /\
  (fst (first john) =
   Some (mkResponse 201 (Created "Attendance recorded successfully" 1)) /\
   fst (second john) =
   Some (mkResponse 201 (Created "Attendance recorded successfully" 2)) /\
   table_of (snd (second john)) =
   Some (mkTable
           [mkRow 1 "John Roe" (copies 100 "E") (mkDate 2024 1 5) Present 1001;
            mkRow 2 "John Roe" (copies 100 "E") (mkDate 2024 1 5) Present 1002]
           3) /\
   ~ world_ok (snd (second john))).
Proof.
  cbv zeta.
  split; [ vm_compute; constructor | ].
  split;
    (split; [ vm_compute; reflexivity | ]);
    (split; [ vm_compute; reflexivity | ]);
    (split; [ vm_compute; reflexivity | ]);
    vm_compute; intros N; inversion N as [| k ks Nin _]; apply Nin; now left.
Qed.

(** ** Delete *)

(** DELETE /api/attendance/1 on the table of the example. *)
Lemma delete_by_id_witness :
  let r := mkRow 1 "Jane Doe" "E100" (mkDate 2024 1 5) Present 1000 in
  let t := mkTable [r] 2 in
  (exists x, In x (rows t) /\ Zpos (id x) = 1%Z) /\
  exists w' : World,
    delete_attendance 1 (serving t 1001) =
    (inr (mkResponse 200 (Message "Record deleted successfully")), w') /\
    table_of w' = Some (mkTable [] 2).
Proof.
  cbv zeta.
  assert (X : exists x,
             In x (rows (mkTable
                           [mkRow 1 "Jane Doe" "E100" (mkDate 2024 1 5)
                                  Present 1000] 2)) /\
             Zpos (id x) = 1%Z).
  { eexists. split; [ left; reflexivity | reflexivity ]. }
  split; [ exact X | ].
  destruct (proj1 (delete_by_id _ 1001 1%Z) X) as (w' & E & T & _).
  exists w'. split; [ exact E | exact T ].
Defined.

(** ** Filter *)

(** GET /api/attendance/filter?employeeID=E100 of the example. *)
Lemma filter_returns_matching_records_witness :
  let r1 := mkRow 1 "Jane Doe" "E100" (mkDate 2024 1 5) Present 1000 in
  let r2 := mkRow 2 "John Roe" "E200" (mkDate 2024 1 6) Absent 1001 in
  let t := mkTable [r1; r2] 3 in
  let q := mkQuery None None (Some "E100") in
  plain_query q /\
  exists (l : list Row) (w' : World),
    filter_attendance q (serving t 1002) =
    (inr (mkResponse 200 (Records l)), w') /\
    Permutation l [r1].
Proof.
  cbv zeta.
  assert (P : plain_query (mkQuery None None (Some "E100"))).
  { repeat split; cbn; intros s E; inversion E; reflexivity. }
  split; [ exact P | ].
  destruct (filter_returns_matching_records
              (mkTable
                 [mkRow 1 "Jane Doe" "E100" (mkDate 2024 1 5) Present 1000;
                  mkRow 2 "John Roe" "E200" (mkDate 2024 1 6) Absent 1001] 3)
              1002 _ P) as (l & w' & F & _ & Pm & _).
  exists l, w'. split; [ exact F | exact Pm ].
Defined.

(** C7, as stated, fails.  The parameter [_] for employeeID is contained in
    no stored employee ID, yet the record of E100 is returned, since LIKE
    reads [_] as "any character"; a supplied date that is not a date is
    answered 500 rather than with the records (none) dated so; and the
    employeeName [jane] is contained in no stored name, yet the record of
    Jane Doe is returned, since the collation of the column ignores case. *)
Lemma filter_containment_counterexample :
  let r := mkRow 1 "Jane Doe" "E100" (mkDate 2024 1 5) Present 0 in
  let t := mkTable [r] 2 in
  (Js.contains (employeeID r) "_" = false /\
   claimed_match (mkQuery None None (Some "_")) r = false /\
   exists w' : World,
     filter_attendance (mkQuery None None (Some "_")) (serving t 0) =
     (inr (mkResponse 200 (Records [r])), w')) /\
  (exists w' : World,
     filter_attendance (mkQuery (Some "someday") None None) (serving t 0) =
     (inr (mkResponse 500 (Failure "Failed to filter attendance records")),
      w')) /\
  (Js.contains (employeeName r) "jane" = false /\
   claimed_match (mkQuery None (Some "jane") None) r = false /\
   exists w' : World,
     filter_attendance (mkQuery None (Some "jane") None) (serving t 0) =
     (inr (mkResponse 200 (Records [r])), w')).
Proof.
  cbv zeta. repeat split; try reflexivity; eexists; vm_compute; reflexivity.
Qed.

(** GET /api/attendance/filter?date=&employeeName= *)
Lemma blank_filter_is_list_all_witness :
  let r1 := mkRow 1 "Jane Doe" "E100" (mkDate 2024 1 5) Present 1000 in
  let r2 := mkRow 2 "John Roe" "E200" (mkDate 2024 1 6) Absent 1001 in
  let t := mkTable [r1; r2] 3 in
  let q := mkQuery (Some "") (Some "") None in
  (blank (query_date q) /\ blank (query_employeeName q) /\
   blank (query_employeeID q)) /\
  filter_attendance q (serving t 1002) = get_attendance (serving t 1002).
Proof.
  cbv zeta.
  assert (B1 : blank (Some "")) by (right; reflexivity).
  assert (B2 : blank None) by (left; reflexivity).
  split; [ repeat split; assumption | ].
  exact (proj1 (blank_filter_is_list_all _ 1002
                  (mkQuery (Some "") (Some "") None) B1 B1 B2)).
Defined.

(** ** Start-up *)

(** The table cannot be created: the fourth call fails. *)
Lemma bootstrap_precedes_listening_witness :
  let fs := [Answered; Answered; Answered; Refused] in
  let w' := snd (startServer (boot NoDatabase 0 fs)) in
  (exists k, k < 4 /\ nth k fs Answered <> Answered) /\
  process w' = Exited 1 /\ ~ In Listen (journal w').
Proof.
  cbv zeta.
  assert (F : exists k, k < 4 /\
                        nth k [Answered; Answered; Answered; Refused] Answered
                        <> Answered)
    by (exists 3; split; [ lia | discriminate ]).
  split; [ exact F | ].
  destruct (proj1 (proj2 (proj2
             (bootstrap_precedes_listening NoDatabase 0
                [Answered; Answered; Answered; Refused]))) F)
    as (P & _ & N & _).
  split; [ exact P | exact N ].
Defined.

(** The scenario of the specification, from an empty server: start, POST
    Jane Doe twice, then filter on her employee ID. *)
Example specification_scenario :
  let jane := mkCreateBody (Js.Str "Jane Doe") (Js.Str "E100")
                           (Js.Str "2024-01-05") (Js.Str "Present") in
  let w0 := snd (startServer (boot NoDatabase 1000 [])) in
  let (r1, w1) := serve (Create jane) w0 in
  let (r2, w2) := serve (Create jane) w1 in
  let (r3, _) := serve (Filter (mkQuery None None (Some "E100"))) w2 in
  r1 = Some (mkResponse 201 (Created "Attendance recorded successfully" 1)) /\
  option_map code r2 = Some 400 /\
  r3 = Some (mkResponse 200
               (Records [mkRow 1 "Jane Doe" "E100" (mkDate 2024 1 5)
                               Present 1000])).
Proof. cbv zeta. vm_compute. repeat split. Qed.

(** ** The further properties *)

(** A 404 of Delete on a table of two records. *)
Lemma reads_and_refusals_write_nothing_witness :
  let t := mkTable [mkRow 1 "Jane Doe" "E100" (mkDate 2024 1 5) Present 1000;
                    mkRow 2 "John Roe" "E200" (mkDate 2024 1 6) Absent 1001]
                   3 in
  exists (resp : Response) (w' : World),
    handle (Remove 7) (serving t 1002) = (inr resp, w') /\
    code resp = 404 /\
    storage w' = storage (serving t 1002).
Proof.
  cbv zeta. eexists. eexists.
  split; [ reflexivity | ]. split; [ reflexivity | ].
  eapply (reads_and_refusals_write_nothing (Remove 7)).
  - reflexivity.
  - right. left. reflexivity.
Defined.

(** The server was started by hand on a machine without the database. *)
Lemma unanswered_statement_is_500_witness :
  let w := mkWorld NoDatabase 0 [] [] Listening in
  refuses w /\
  fst (get_attendance w) =
  inr (mkResponse 500 (Failure "Failed to fetch attendance records")).
Proof.
  cbv zeta.
  assert (R : refuses (mkWorld NoDatabase 0 [] [] Listening))
    by (right; left; reflexivity).
  split; [ exact R | ].
  exact (proj1 (unanswered_statement_is_500 _ R)).
Defined.

(** The connection is lost once the server has run the INSERT: the client
    is told 500 and the record is there. *)
Lemma unanswered_insert_is_500_witness :
  ("Jane Doe" <> "" /\ "E100" <> "" /\ "2024-01-05" <> "" /\
   reads_as "2024-01-05" (mkDate 2024 1 5) /\ Dropped <> Answered) /\
  post_attendance (text_body "Jane Doe" "E100" "2024-01-05" Present)
    (mkWorld (HasTable empty_table) 0 [Answered; Dropped] [] Listening) =
  (inr (mkResponse 500 (Failure "Failed to record attendance")),
   mkWorld
     (HasTable
        (mkTable [mkRow 1 "Jane Doe" "E100" (mkDate 2024 1 5) Present 0] 2))
     0 []
     [Execute Pool
        (Select [EmployeeIdEq (Js.Str "E100"); DateEq (Js.Str "2024-01-05")]
                false);
      Execute Pool
        (Insert (Js.Str "Jane Doe") (Js.Str "E100") (Js.Str "2024-01-05")
                (Js.Str "Present"))]
     Listening).
Proof.
  assert (H1 : "Jane Doe" <> "") by discriminate.
  assert (H2 : "E100" <> "") by discriminate.
  assert (H3 : "2024-01-05" <> "") by discriminate.
  assert (H4 : reads_as "2024-01-05" (mkDate 2024 1 5))
    by (split; [ reflexivity | exists 0; reflexivity ]).
  assert (H5 : Dropped <> Answered) by discriminate.
  split; [ exact (conj H1 (conj H2 (conj H3 (conj H4 H5)))) | ].
  rewrite (unanswered_insert_is_500 empty_table 0 Dropped [] [] Listening
             "Jane Doe" "E100" "2024-01-05" (mkDate 2024 1 5) Present
             H1 H2 H3).
  - reflexivity.
  - simpl; lia.
  - simpl; lia.
  - exact H4.
  - intros r [].
  - vm_compute; discriminate.
  - exact H5.
Defined.

(** An empty status with a missing date: the first message. *)
Lemma create_validation_messages_witness :
  let b := mkCreateBody (Js.Str "Jane Doe") (Js.Str "E100") Js.Undefined
                        (Js.Str "") in
  missing_or_empty (body_date b) /\
  post_attendance b (serving empty_table 0) =
  (inr (mkResponse 400 (Failure "All fields are required")),
   serving empty_table 0).
Proof.
  cbv zeta.
  assert (M : missing_or_empty Js.Undefined) by (left; reflexivity).
  split; [ exact M | ].
  apply (proj1 (create_validation_messages
                  (mkCreateBody (Js.Str "Jane Doe") (Js.Str "E100")
                                Js.Undefined (Js.Str ""))
                  (serving empty_table 0))).
  right. right. left. exact M.
Defined.

(** A storage that fails every second call, and a request without a body. *)
Lemma listening_server_keeps_answering_witness :
  let w := mkWorld NoTable 0 [Refused; Answered; Dropped] [] Listening in
  let rs := [(1%Z, ListAll); (2%Z, CreateWithoutBody); (3%Z, Remove 3%Z)] in
  process w = Listening /\
  process (serve_all rs w) = Listening.
Proof.
  cbv zeta.
  assert (L : process (mkWorld NoTable 0 [Refused; Answered; Dropped] []
                               Listening) = Listening) by reflexivity.
  split; [ exact L | ].
  exact (proj1 (listening_server_keeps_answering _
                  [(1%Z, ListAll); (2%Z, CreateWithoutBody);
                   (3%Z, Remove 3%Z)]
                  HealthCheck 4%Z L)).
Defined.

Lemma stored_rows_respect_columns_witness :
  let jane := text_body "Jane Doe" "E100" "2024-01-05" Present in
  rows_ok (boot NoTable 0 []) /\
  rows_ok (serve_all [(1%Z, Create jane); (2%Z, Remove 1%Z); (3%Z, Create jane)]
                     (snd (startServer (boot NoTable 0 [])))).
Proof.
  cbv zeta.
  assert (OK : rows_ok (boot NoTable 0 [])) by exact I.
  split; [ exact OK | ].
  exact (proj2 stored_rows_respect_columns NoTable 0%Z [] _ OK).
Defined.

Lemma ids_stay_a_primary_key_witness :
  let jane := text_body "Jane Doe" "E100" "2024-01-05" Present in
  let john := text_body "John Roe" "E200" "2024-01-05" Absent in
  keys_ok (boot NoDatabase 0 []) /\
  keys_ok (serve_all [(1%Z, Create jane); (2%Z, Remove 1%Z); (3%Z, Create john)]
                     (snd (startServer (boot NoDatabase 0 [])))).
Proof.
  cbv zeta.
  assert (OK : keys_ok (boot NoDatabase 0 [])) by exact I.
  split; [ exact OK | ].
  exact (proj1 (proj2 ids_stay_a_primary_key) NoDatabase 0%Z [] _ OK).
Defined.

(** Two Creates for the same employee and day, in canonical spelling, then
    one for another employee. *)
Lemma plain_creates_keep_one_per_day_witness :
  let jane := text_body "Jane Doe" "E100" "2024-01-05" Present in
  let john := text_body "John Roe" "E200" "2024-01-05" Absent in
  let rs := [(1%Z, Create jane); (2%Z, Create jane); (3%Z, Create john)] in
  (Forall (fun x => plain_create (snd x)) rs /\
   world_ok (boot NoDatabase 0 [])) /\
  world_ok (serve_all rs (snd (startServer (boot NoDatabase 0 [])))) /\
  option_map (fun t => List.length (rows t))
    (table_of (serve_all rs (snd (startServer (boot NoDatabase 0 []))))) =
  Some 2.
Proof.
  cbv zeta.
  assert (Pl : forall n e st,
             String.length e <= 100 ->
             plain_create (Create (text_body n e "2024-01-05" st))).
  { intros n e st Le e' ds d Ee Ed Dd. cbn in Ee, Ed. inversion Ee; subst.
    inversion Ed; subst.
    change (Some (mkDate 2024 1 5) = Some d) in Dd. inversion Dd; subst.
    split; [ exact Le | reflexivity ]. }
  assert (F : Forall (fun x => plain_create (snd x))
                [(1%Z, Create (text_body "Jane Doe" "E100" "2024-01-05" Present));
                 (2%Z, Create (text_body "Jane Doe" "E100" "2024-01-05" Present));
                 (3%Z, Create (text_body "John Roe" "E200" "2024-01-05" Absent))]).
  { repeat (apply Forall_cons; [ apply Pl; simpl; lia | ]).
    apply Forall_nil. }
  assert (OK : world_ok (boot NoDatabase 0 [])) by exact I.
  split; [ split; [ exact F | exact OK ] | ].
  split; [ | reflexivity ].
  exact (proj2 plain_creates_keep_one_per_day NoDatabase 0%Z [] _ F OK).
Defined.

(** A date with a time of day, on a table that holds a record of that
    employee and that day. *)
Lemma timed_date_is_never_a_duplicate_witness :
  let r := mkRow 1 "Jane Doe" "E100" (mkDate 2024 1 5) Present 1000 in
  let t := mkTable [r] 2 in
  (read_date "2024-01-05 00:01:00" = Some (mkDate 2024 1 5) /\
   read_temporal "2024-01-05 00:01:00" = Some (mkDate 2024 1 5, 60) /\
   60 <> 0) /\
  exists w' : World,
    post_attendance (text_body "Jane Doe" "E100" "2024-01-05 00:01:00" Present)
                    (serving t 1001) =
    (inr (mkResponse 201 (Created "Attendance recorded successfully" 2)),
     w') /\
    table_of w' =
    Some (mkTable [r; mkRow 2 "Jane Doe" "E100" (mkDate 2024 1 5) Present 1001]
                  3).
Proof.
  cbv zeta.
  assert (H1 : read_date "2024-01-05 00:01:00" = Some (mkDate 2024 1 5))
    by (vm_compute; reflexivity).
  assert (H2 : read_temporal "2024-01-05 00:01:00"
               = Some (mkDate 2024 1 5, 60)) by (vm_compute; reflexivity).
  assert (H3 : 60 <> 0) by discriminate.
  assert (N1 : "Jane Doe" <> "") by discriminate.
  assert (N2 : "E100" <> "") by discriminate.
  assert (N3 : "2024-01-05 00:01:00" <> "") by discriminate.
  assert (L1 : String.length "Jane Doe" <= 255) by (simpl; lia).
  assert (L2 : String.length "E100" <= 100) by (simpl; lia).
  assert (B : (2 <= int_max)%positive) by (vm_compute; discriminate).
  split; [ exact (conj H1 (conj H2 H3)) | ].
  exact (timed_date_is_never_a_duplicate
           (mkTable [mkRow 1 "Jane Doe" "E100" (mkDate 2024 1 5) Present 1000] 2)
           1001 "Jane Doe" "E100" "2024-01-05 00:01:00" (mkDate 2024 1 5)
           (mkDate 2024 1 5) 60 Present N1 N2 N3 L1 L2 H1 H2 H3 B).
Defined.

Lemma create_then_delete_restores_records_witness :
  let r := mkRow 1 "John Roe" "E200" (mkDate 2024 1 5) Absent 1000 in
  let t := mkTable [r] 2 in
  (reads_as "2024-01-05" (mkDate 2024 1 5) /\
   unrecorded "E100" (mkDate 2024 1 5) t /\
   Forall (fun r => (id r < auto_increment t)%positive) (rows t)) /\
  exists w1 w2 : World,
    post_attendance (text_body "Jane Doe" "E100" "2024-01-05" Present)
                    (serving t 1001) =
    (inr (mkResponse 201 (Created "Attendance recorded successfully" 2)),
     w1) /\
    delete_attendance 2 (at_time 1002 w1) =
    (inr (mkResponse 200 (Message "Record deleted successfully")), w2) /\
    table_of w2 = Some (mkTable [r] 3).
Proof.
  cbv zeta.
  assert (Dr : reads_as "2024-01-05" (mkDate 2024 1 5))
    by (split; [ reflexivity | exists 0; reflexivity ]).
  assert (U : unrecorded "E100" (mkDate 2024 1 5)
                (mkTable [mkRow 1 "John Roe" "E200" (mkDate 2024 1 5)
                                Absent 1000] 2))
    by (intros r [<- | []]; discriminate).
  assert (F : Forall (fun r => (id r < 2)%positive)
                     [mkRow 1 "John Roe" "E200" (mkDate 2024 1 5) Absent 1000])
    by (constructor; [ reflexivity | constructor ]).
  assert (N1 : "Jane Doe" <> "") by discriminate.
  assert (N2 : "E100" <> "") by discriminate.
  assert (N3 : "2024-01-05" <> "") by discriminate.
  assert (L1 : String.length "Jane Doe" <= 255) by (simpl; lia).
  assert (L2 : String.length "E100" <= 100) by (simpl; lia).
  assert (B : (2 <= int_max)%positive) by (vm_compute; discriminate).
  split; [ exact (conj Dr (conj U F)) | ].
  exact (create_then_delete_restores_records
           (mkTable [mkRow 1 "John Roe" "E200" (mkDate 2024 1 5) Absent 1000] 2)
           1001 1002 "Jane Doe" "E100" "2024-01-05" (mkDate 2024 1 5) Present
           N1 N2 N3 L1 L2 Dr U B F).
Defined.

Lemma wildcard_parameters_are_interpreted_witness :
  let r1 := mkRow 1 "Jane Doe" "E100" (mkDate 2024 1 5) Present 1000 in
  let r2 := mkRow 2 "John Roe" "X1" (mkDate 2024 1 6) Absent 1001 in
  let t := mkTable [r1; r2] 3 in
  0 < 3 /\
  records (filter_attendance (mkQuery None None (Some "___"))
                             (serving t 1002)) = [r1].
Proof.
  cbv zeta.
  assert (K : 0 < 3) by lia.
  split; [ exact K | ].
  exact (proj2 (wildcard_parameters_are_interpreted
                  (mkTable
                     [mkRow 1 "Jane Doe" "E100" (mkDate 2024 1 5) Present 1000;
                      mkRow 2 "John Roe" "X1" (mkDate 2024 1 6) Absent 1001] 3)
                  1002 3 K)).
Defined.

Lemma filter_is_the_conjunction_witness :
  let r1 := mkRow 1 "Jane Doe" "E100" (mkDate 2024 1 5) Present 1000 in
  let r2 := mkRow 2 "John Roe" "E200" (mkDate 2024 1 5) Absent 1001 in
  let t := mkTable [r1; r2] 3 in
  let q := mkQuery (Some "2024-01-05") (Some "Doe") None in
  date_ok q /\
  (In r1 (records (filter_attendance q (serving t 1002))) <->
   In r1 (records (filter_attendance (only_date q) (serving t 1002))) /\
   In r1 (records (filter_attendance (only_name q) (serving t 1002))) /\
   In r1 (records (filter_attendance (only_id q) (serving t 1002)))).
Proof.
  cbv zeta.
  assert (Dq : date_ok (mkQuery (Some "2024-01-05") (Some "Doe") None)).
  { intros s E _. inversion E; subst. discriminate. }
  split; [ exact Dq | ].
  exact (filter_is_the_conjunction _ 1002 _ _ Dq).
Defined.

Lemma created_record_is_found_by_filter_witness :
  (to_date "2024-01-05" = Some (mkDate 2024 1 5) /\
   unrecorded "E_100" (mkDate 2024 1 5) empty_table /\
   no_backslash "100% Jane_Doe" = true /\ no_backslash "E_100" = true) /\
  In (mkRow 1 "100% Jane_Doe" "E_100" (mkDate 2024 1 5) Present 1000)
     (records
        (filter_attendance
           (mkQuery (Some "2024-01-05") (Some "100% Jane_Doe") (Some "E_100"))
           (at_time 1001
              (snd (post_attendance
                      (text_body "100% Jane_Doe" "E_100" "2024-01-05" Present)
                      (serving empty_table 1000)))))).
Proof.
  assert (Dc : to_date "2024-01-05" = Some (mkDate 2024 1 5)) by reflexivity.
  assert (U : unrecorded "E_100" (mkDate 2024 1 5) empty_table)
    by (intros r []).
  assert (B1 : no_backslash "100% Jane_Doe" = true) by reflexivity.
  assert (B2 : no_backslash "E_100" = true) by reflexivity.
  assert (N1 : "100% Jane_Doe" <> "") by discriminate.
  assert (N2 : "E_100" <> "") by discriminate.
  assert (L1 : String.length "100% Jane_Doe" <= 255) by (simpl; lia).
  assert (L2 : String.length "E_100" <= 100) by (simpl; lia).
  assert (B : (1 <= int_max)%positive) by (vm_compute; discriminate).
  split; [ exact (conj Dc (conj U (conj B1 B2))) | ].
  exact (created_record_is_found_by_filter empty_table 1000 1001
           "100% Jane_Doe" "E_100" "2024-01-05" (mkDate 2024 1 5) Present
           N1 N2 L1 L2 Dc U B B1 B2).
Defined.

(** The server creates the database, and the answer is lost. *)
Lemma failed_start_is_not_undone_witness :
  let fs := [Answered; Dropped] in
  let w' := snd (startServer (boot NoDatabase 0 fs)) in
  (1 < 4 /\ fails_at 1 fs) /\
  journal w' = [Connect; Execute Setup CreateDatabase; Exit 1] /\
  storage w' = NoTable.
Proof.
  cbv zeta.
  assert (L : 1 < 4) by lia.
  assert (F : fails_at 1 [Answered; Dropped]).
  { split; [ discriminate | ].
    intros j Lj. destruct j as [| j]; (reflexivity || lia). }
  split; [ split; [ exact L | exact F ] | ].
  destruct (failed_start_is_not_undone NoDatabase 0 _ 1 L F) as (J & S & _).
  split; [ exact J | exact S ].
Defined.

Lemma restart_keeps_the_table_witness :
  let t := mkTable [mkRow 1 "Jane Doe" "E100" (mkDate 2024 1 5) Present 1000]
                   2 in
  HasTable t = HasTable t /\
  storage (snd (startServer (boot (HasTable t) 2000 [Answered; Dropped]))) =
  HasTable t.
Proof.
  cbv zeta. split; [ reflexivity | ].
  exact (proj1 (restart_keeps_the_table _ 2000 0 [Answered; Dropped] [])
           _ eq_refl).
Defined.

(** A record entered as Absent is corrected to Present; another record of
    the day, for another employee, stays. *)
Lemma delete_frees_the_day_witness :
  let r0 := mkRow 1 "Jane Doe" "E100" (mkDate 2024 1 5) Absent 1000 in
  let r1 := mkRow 2 "John Roe" "E200" (mkDate 2024 1 5) Present 1001 in
  let t := mkTable [r0; r1] 3 in
  (In r0 (rows t) /\ row_ok r0 /\
   to_date "2024-01-05" = Some (date r0)) /\
  exists w1 w2 : World,
    delete_attendance 1 (serving t 1002) =
    (inr (mkResponse 200 (Message "Record deleted successfully")), w1) /\
    post_attendance (text_body "Jane Doe" "E100" "2024-01-05" Present)
                    (at_time 1003 w1) =
    (inr (mkResponse 201 (Created "Attendance recorded successfully" 3)), w2).
Proof.
  cbv zeta.
  set (r0 := mkRow 1 "Jane Doe" "E100" (mkDate 2024 1 5) Absent 1000).
  set (r1 := mkRow 2 "John Roe" "E200" (mkDate 2024 1 5) Present 1001).
  assert (I0 : In r0 (rows (mkTable [r0; r1] 3))) by (left; reflexivity).
  assert (R : row_ok r0).
  { unfold row_ok. cbn. repeat split; try discriminate; lia. }
  assert (Dc : to_date "2024-01-05" = Some (date r0)) by reflexivity.
  assert (U : forall r, In r (rows (mkTable [r0; r1] 3)) ->
                        equates (employeeID r) (employeeID r0) = true ->
                        date r = date r0 -> id r = id r0).
  { intros r [<- | [<- | []]] Q _; [ reflexivity | discriminate Q ]. }
  assert (N1 : "Jane Doe" <> "") by discriminate.
  assert (L1 : String.length "Jane Doe" <= 255) by (simpl; lia).
  assert (B : (3 <= int_max)%positive) by (vm_compute; discriminate).
  split; [ exact (conj I0 (conj R Dc)) | ].
  destruct (delete_frees_the_day (mkTable [r0; r1] 3) 1002 1003 r0
              "Jane Doe" "2024-01-05" Present I0 R U N1 L1 Dc B)
    as (w0 & w1 & w2 & _ & E1 & E2).
  exists w1, w2. split; [ exact E1 | exact E2 ].
Defined.

Lemma records_are_never_modified_witness :
  let r0 := mkRow 1 "Jane Doe" "E100" (mkDate 2024 1 5) Absent 1000 in
  let t := mkTable [r0] 2 in
  let w := serving t 1001 in
  let t' := mkTable [r0; mkRow 2 "John Roe" "E200" (mkDate 2024 1 5)
                               Present 1001] 3 in
  let b := text_body "John Roe" "E200" "2024-01-05" Present in
  (storage w = HasTable t /\ storage (snd (handle (Create b) w)) = HasTable t')
  /\ (auto_increment t <= auto_increment t')%positive.
Proof.
  cbv zeta.
  assert (S0 : storage
                 (serving
                    (mkTable [mkRow 1 "Jane Doe" "E100" (mkDate 2024 1 5)
                                    Absent 1000] 2) 1001) =
               HasTable
                 (mkTable [mkRow 1 "Jane Doe" "E100" (mkDate 2024 1 5)
                                 Absent 1000] 2)) by reflexivity.
  assert (S1 : storage
                 (snd (handle
                         (Create (text_body "John Roe" "E200" "2024-01-05"
                                            Present))
                         (serving
                            (mkTable [mkRow 1 "Jane Doe" "E100"
                                            (mkDate 2024 1 5) Absent 1000] 2)
                            1001))) =
               HasTable
                 (mkTable [mkRow 1 "Jane Doe" "E100" (mkDate 2024 1 5)
                                 Absent 1000;
                           mkRow 2 "John Roe" "E200" (mkDate 2024 1 5)
                                 Present 1001] 3)) by reflexivity.
  split; [ split; [ exact S0 | exact S1 ] | ].
  exact (proj1 (records_are_never_modified _ _ _ _ S0 S1)).
Defined.
